(** * oma-helen-cli: the Oma Helen session and API client

    A shallow embedding of [helenservice/client/helen_session.py] and
    [helenservice/api_client.py], and the properties of contract
    resolution, of the query window and of the cost aggregates.

    Conventions of the embedding:
    - a Python [float] is an IEEE 754 binary64 number ([PrimFloat.float]);
      JSON numbers are read as floats;
    - a function that can raise returns a [result]; the exceptions are the
      constructors of [exn];
    - the remote service is a pure function of the request (the record
      [HelenApiClient] holds what it answers);
    - the accessors that the source memoises ([@cached], for one hour)
      are modelled by their bodies, that is, as they run when no answer
      is cached for the call: an answer served from the cache is returned
      by the source without resolving a contract or reading the token;
    - [datetime.now()] is one instant [clock] for the whole of a call. *)

From stdpp Require Import gmap strings.
From Stdlib Require Import ZArith List Bool Lia.
From Stdlib Require Import Floats.PrimFloat Numbers.Cyclic.Int63.Uint63.
From Stdlib Require Import Strings.String Strings.Ascii.
From Stdlib Require Import Numbers.DecimalString.
Import ListNotations.

Open Scope string_scope.
Open Scope Z_scope.

(** ** Exceptions and results *)

Inductive exn : Type :=
| IndexError
| ValueError
| TypeError
| AttributeError
| OverflowError
| ZeroDivisionError
| InvalidApiResponseException (msg : string)
| Exception (msg : string)
| KeyError
| CookieConflictError.

Inductive result (A : Type) : Type :=
| Ok (a : A)
| Raise (e : exn).

Arguments Ok {A} a.
Arguments Raise {A} e.

Definition bind {A B : Type} (r : result A) (k : A -> result B) : result B :=
  match r with
  | Ok a => k a
  | Raise e => Raise e
  end.

Notation "'let*' x ':=' e 'in' k" := (bind e (fun x => k))
  (at level 10, x name, e at level 100, k at level 200).
Notation "'let*' ' p ':=' e 'in' k" :=
  (bind e (fun x => match x with p => k end))
  (at level 10, p pattern, e at level 100, k at level 200).

(** ** helen_session.py *)

Module HelenSession.

(** A cookie of the jar of the [requests.Session]: its name, its value
    ([None] for a cookie sent without one), its domain and its path. *)
Record Cookie : Type :=
  { cookie_name : string;
    cookie_value : option string;
    cookie_domain : string;
    cookie_path : string }.

(** The [requests.Session] of a [HelenSession], reduced to its cookie jar:
    the cookies in the order in which the jar is iterated. *)
Record t : Type := { cookies : list Cookie }.

(** [HelenSession.__init__]: a fresh [Session()], with no cookie. *)
Definition init : t := {| cookies := [] |}.

(** The loop of [RequestsCookieJar._find_no_duplicates(name)], called
    with no domain and no path: a second cookie of the name after one with
    a value is a conflict. *)
Fixpoint find_loop (name : string) (jar : list Cookie)
  (toReturn : option string) : result (option string) :=
  match jar with
  | [] => Ok toReturn
  | cookie :: jar' =>
      if String.eqb (cookie_name cookie) name then
        match toReturn with
        | Some _ => Raise CookieConflictError
        | None => find_loop name jar' (cookie_value cookie)
        end
      else find_loop name jar' toReturn
  end.

(** [if toReturn: return toReturn], else [KeyError]: an empty value is no
    value. *)
Definition _find_no_duplicates (name : string) (s : t) : result string :=
  let* toReturn := find_loop name (cookies s) None in
  match toReturn with
  | Some (String c v) => Ok (String c v)
  | Some EmptyString => Raise KeyError
  | None => Raise KeyError
  end.

(** [session.cookies.get(name)]: the [KeyError] becomes the default,
    [None]. *)
Definition cookies_get (name : string) (s : t) : result (option string) :=
  match _find_no_duplicates name s with
  | Ok v => Ok (Some v)
  | Raise KeyError => Ok None
  | Raise e => Raise e
  end.

Definition get_access_token (s : t) : result string :=
  let* access_token := cookies_get "access-token" s in
  match access_token with
  | None => Raise (Exception "No access token found. Log in first")
  | Some tok => Ok tok
  end.

End HelenSession.

(** ** Numbers

    [sum(xs)] adds from the left, starting at zero (CPython 3.12 and later
    compensate the rounding error of the additions; below, a sum is only
    ever compared with the sum of the same list). [a / b] raises
    [ZeroDivisionError] when [b == 0] ([py_truediv]; a division by the
    literal [100] is written [PrimFloat.div]). A length, below 2^63, is
    converted to a float by the division. *)

Definition py_sum (xs : list float) : float :=
  fold_left PrimFloat.add xs 0%float.

Definition py_truediv (a b : float) : result float :=
  if PrimFloat.eqb b 0%float then Raise ZeroDivisionError
  else Ok (PrimFloat.div a b).

Definition float_of_len (n : nat) : float :=
  PrimFloat.of_uint63 (Uint63.of_Z (Z.of_nat n)).

(** ** Calendar dates ([datetime.date]) *)

Record date : Type := { year : Z; month : Z; day : Z }.

Definition is_leap (y : Z) : bool :=
  (y mod 4 =? 0) && (negb (y mod 100 =? 0) || (y mod 400 =? 0)).

Definition days_in_month (y m : Z) : Z :=
  if m =? 2 then (if is_leap y then 29 else 28)
  else if (m =? 4) || (m =? 6) || (m =? 9) || (m =? 11) then 30
  else 31.

(** The dates a [date] object can hold: 0001-01-01 to 9999-12-31. *)
Definition valid_date (d : date) : bool :=
  (1 <=? year d) && (year d <=? 9999) &&
  (1 <=? month d) && (month d <=? 12) &&
  (1 <=? day d) && (day d <=? days_in_month (year d) (month d)).

(** [d + relativedelta(days=-1)]: the day before [d]; before [date.min]
    there is none and the addition raises. *)
Definition minus_one_day (d : date) : result date :=
  if 1 <? day d then
    Ok {| year := year d; month := month d; day := day d - 1 |}
  else if 1 <? month d then
    Ok {| year := year d; month := month d - 1;
          day := days_in_month (year d) (month d - 1) |}
  else if 1 <? year d then
    Ok {| year := year d - 1; month := 12; day := 31 |}
  else Raise OverflowError.

(** [date.toordinal()]: the number of the day, 0001-01-01 being day 1. *)
Definition days_before_year (y : Z) : Z :=
  (y - 1) * 365 + (y - 1) / 4 - (y - 1) / 100 + (y - 1) / 400.

Fixpoint days_before_month_nat (y : Z) (m : nat) : Z :=
  match m with
  | O => 0
  | S m' => days_before_month_nat y m' + days_in_month y (Z.of_nat m)
  end.

Definition days_before_month (y m : Z) : Z :=
  days_before_month_nat y (Z.to_nat (m - 1)).

Definition toordinal (d : date) : Z :=
  days_before_year (year d) + days_before_month (year d) (month d) + day d.

(** [str(d)], which is [d.isoformat()]: ["%04d-%02d-%02d"]. [digits w n]
    writes the [w] low decimal digits of [n], which are all its digits for
    the fields of a date. *)
Definition digit_char (n : Z) : ascii :=
  ascii_of_nat (48 + Z.to_nat (n mod 10)).

Fixpoint digits (w : nat) (n : Z) : string :=
  match w with
  | O => EmptyString
  | S w' => digits w' (n / 10) ++ String (digit_char n) EmptyString
  end.

Definition isoformat (d : date) : string :=
  digits 4 (year d) ++ "-" ++ digits 2 (month d) ++ "-" ++ digits 2 (day d).

(** ** Instants ([datetime.datetime], naive) *)

Record datetime : Type :=
  { on : date; hour : Z; minute : Z; second : Z; microsecond : Z }.

Definition dt_fields (t : datetime) : list Z :=
  [year (on t); month (on t); day (on t);
   hour t; minute t; second t; microsecond t].

(** Naive datetimes compare field by field, the year first. *)
Fixpoint lex_compare (a b : list Z) : comparison :=
  match a, b with
  | [], [] => Eq
  | [], _ :: _ => Lt
  | _ :: _, [] => Gt
  | x :: a', y :: b' =>
      match x ?= y with
      | Eq => lex_compare a' b'
      | c => c
      end
  end.

Definition dt_compare (a b : datetime) : comparison :=
  lex_compare (dt_fields a) (dt_fields b).

(** [a >= b] and [a > b] *)
Definition dt_geb (a b : datetime) : bool :=
  match dt_compare a b with Lt => false | _ => true end.

Definition dt_gtb (a b : datetime) : bool :=
  match dt_compare a b with Gt => true | _ => false end.

(** [datetime.strptime(s, '%Y-%m-%dT%H:%M:%S')]. The format compiles to the
    regular expression
    [(\d\d\d\d)-(1[0-2]|0[1-9]|[1-9])-(3[0-1]|[1-2]\d|0[1-9]|[1-9]| [1-9])T
     (2[0-3]|[0-1]\d|\d):([0-5]\d|\d):(6[0-1]|[0-5]\d|\d)],
    matched without regard to case and up to the end of the string; the
    fields are then given to the [datetime] constructor, which checks
    them. Digits are the ASCII ones. *)
Definition is_digit (c : ascii) : bool :=
  (48 <=? nat_of_ascii c)%nat && (nat_of_ascii c <=? 57)%nat.

Definition digit_val (c : ascii) : Z := Z.of_nat (nat_of_ascii c) - 48.

Definition read_year (s : list ascii) : option (Z * list ascii) :=
  match s with
  | a :: b :: c :: d :: rest =>
      if is_digit a && is_digit b && is_digit c && is_digit d
      then Some (1000 * digit_val a + 100 * digit_val b
                 + 10 * digit_val c + digit_val d, rest)
      else None
  | _ => None
  end.

(** A field of two digits with value in [lo..hi], or of one digit at least
    [lo]. Every field is followed by a separator that is not a digit, or by
    the end of the string, so a digit left behind makes the match fail. *)
Definition read_field (lo hi : Z) (s : list ascii)
  : option (Z * list ascii) :=
  match s with
  | a :: rest =>
      if is_digit a then
        match rest with
        | b :: rest' =>
            if is_digit b then
              let v := 10 * digit_val a + digit_val b in
              if (lo <=? v) && (v <=? hi) then Some (v, rest') else None
            else if lo <=? digit_val a then Some (digit_val a, rest)
            else None
        | [] => if lo <=? digit_val a then Some (digit_val a, rest) else None
        end
      else None
  | [] => None
  end.

(** The day also has the alternative of a space and one digit. *)
Definition read_day (s : list ascii) : option (Z * list ascii) :=
  match s with
  | " "%char :: a :: rest =>
      if is_digit a && (1 <=? digit_val a) then Some (digit_val a, rest)
      else None
  | _ => read_field 1 31 s
  end.

Definition expect (c : ascii) (s : list ascii) : option (list ascii) :=
  match s with
  | a :: rest => if Ascii.eqb a c then Some rest else None
  | [] => None
  end.

Definition expect_T (s : list ascii) : option (list ascii) :=
  match s with
  | a :: rest =>
      if Ascii.eqb a "T"%char || Ascii.eqb a "t"%char then Some rest
      else None
  | [] => None
  end.

Definition match_format (s : list ascii) : option datetime :=
  '(y, s) ← read_year s;
  s ← expect "-"%char s;
  '(m, s) ← read_field 1 12 s;
  s ← expect "-"%char s;
  '(d, s) ← read_day s;
  s ← expect_T s;
  '(hh, s) ← read_field 0 23 s;
  s ← expect ":"%char s;
  '(mm, s) ← read_field 0 59 s;
  s ← expect ":"%char s;
  '(ss, s) ← read_field 0 61 s;
  match s with
  | [] => Some {| on := {| year := y; month := m; day := d |};
                  hour := hh; minute := mm; second := ss;
                  microsecond := 0 |}
  | _ :: _ => None
  end.

Definition strptime (s : string) : result datetime :=
  match match_format (list_ascii_of_string s) with
  | Some t => if valid_date (on t) && (second t <=? 59) then Ok t
              else Raise ValueError
  | None => Raise ValueError
  end.

(** ** What the service answers

    The contract list of [GET /contract/list] and the measurement and
    spot-price responses ([api_response.py]), with the keys the client
    reads. *)

Record Component : Type :=
  { name : string; price : float; is_base_price : bool }.

Record Product : Type :=
  { product_type : string; components : list Component }.

Record Contract : Type :=
  { domain : string;
    start_date : string;
    end_date : option string;
    delivery_site_id : Z;          (* contract["delivery_site"]["id"] *)
    products : list Product }.

Record Measurement : Type := { value : float; status : string }.

Record Series : Type := { measurements : list Measurement }.

Record Intervals : Type := { electricity : list Series }.

Record MeasurementResponse : Type := { intervals : option Intervals }.

Record SpotPricesResponse : Type := { interval : option Series }.

(** The query parameters of the measurement and spot-price requests. *)
Record Params : Type :=
  { begin_ : string;
    end_ : string;
    resolution : string;
    site : Z;                      (* "delivery_site_id" *)
    allow_transfer : string }.

(** ** api_client.py *)

Definition HELEN_API_URL_V14 : string := "https://api.omahelen.fi/v14".
Definition MEASUREMENTS_ENDPOINT : string := "/measurements/electricity".
Definition TRANSFER_ENDPOINT : string := "/measurements/electricity-transfer".
Definition SPOT_PRICES_ENDPOINT : string :=
  MEASUREMENTS_ENDPOINT ++ "/spot-prices".

(** The client: its configuration and session, the clock it reads and the
    service it talks to. *)
Record HelenApiClient : Type :=
  { _tax : float;
    _margin : float;
    _session : option HelenSession.t;
    clock : datetime;
    contract_list : list Contract;
    measurements_service : string -> Params -> MeasurementResponse;
    spot_prices_service : string -> Params -> SpotPricesResponse }.

(** [l[0]] *)
Definition index0 {A : Type} (l : list A) : result A :=
  match l with
  | [] => Raise IndexError
  | x :: _ => Ok x
  end.

(** [list(filter(f, l))] and [list(map(f, l))] for an [f] that can raise *)
Fixpoint filter_r {A : Type} (f : A -> result bool) (l : list A)
  : result (list A) :=
  match l with
  | [] => Ok []
  | x :: l' =>
      let* b := f x in
      let* r := filter_r f l' in
      Ok (if b then x :: r else r)
  end.

Fixpoint map_r {A B : Type} (f : A -> result B) (l : list A)
  : result (list B) :=
  match l with
  | [] => Ok []
  | x :: l' =>
      let* y := f x in
      let* r := map_r f l' in
      Ok (y :: r)
  end.

(** [l.sort(key=..., reverse=True)] on the keys already computed: a stable
    sort into descending order (equal keys keep their order). *)
Fixpoint insert_desc {A : Type} (x : datetime * A) (l : list (datetime * A))
  : list (datetime * A) :=
  match l with
  | [] => [x]
  | y :: l' => if dt_gtb (fst y) (fst x) then y :: insert_desc x l'
               else x :: y :: l'
  end.

Fixpoint sort_desc {A : Type} (l : list (datetime * A))
  : list (datetime * A) :=
  match l with
  | [] => []
  | x :: l' => insert_desc x (sort_desc l')
  end.

Definition sort_by_start_date (contracts : list Contract)
  : result (list Contract) :=
  let* keys := map_r (fun contract => strptime (start_date contract))
                     contracts in
  Ok (map snd (sort_desc (combine keys contracts))).

(** Before [login] the client has no session: [_session] is [None]. *)
Definition get_api_access_token (self : HelenApiClient) : result string :=
  match _session self with
  | None => Raise AttributeError
  | Some session => HelenSession.get_access_token session
  end.

Definition _api_request_headers (self : HelenApiClient)
  : result (list (string * string)) :=
  let* token := get_api_access_token self in
  Ok [("Authorization", "Bearer " ++ token); ("Accept", "application/json")].

Definition get_contract_data_json (self : HelenApiClient)
  : result (list Contract) :=
  let* _ := _api_request_headers self in
  Ok (contract_list self).

Definition _date_is_now_or_later (self : HelenApiClient) (end_date_str : string)
  : result bool :=
  let* end_date := strptime end_date_str in
  let now := clock self in
  Ok (dt_geb end_date now).

Definition filter_active_contracts (self : HelenApiClient)
  (contracts : list Contract) : result (list Contract) :=
  let* active_contracts :=
    filter_r (fun contract =>
                match end_date contract with
                | None => Ok true
                | Some s => _date_is_now_or_later self s
                end) contracts in
  let active_contracts :=
    List.filter (fun contract =>
                   negb (String.eqb (domain contract) "electricity-production"))
                active_contracts in
  Ok active_contracts.

Definition _get_latest_active_contract (self : HelenApiClient)
  (contracts : list Contract) : result (option Contract) :=
  let* active_contracts := filter_active_contracts self contracts in
  let* active_contracts :=
    if (1 <? List.length active_contracts)%nat
    then sort_by_start_date active_contracts
    else Ok active_contracts in
  if (List.length active_contracts =? 0)%nat then Ok None
  else let* contract := index0 active_contracts in Ok (Some contract).

Definition _get_contract_by_delivery_site_id (self : HelenApiClient)
  (delivery_site_id_ : option Z) : result (option Contract) :=
  let* contracts := get_contract_data_json self in
  match delivery_site_id_ with
  | None => _get_latest_active_contract self contracts
  | Some wanted =>
      let* active_contracts := filter_active_contracts self contracts in
      let active_contracts :=
        List.filter (fun contract => delivery_site_id contract =? wanted)
                    active_contracts in
      if (List.length active_contracts =? 0)%nat then
        let* contract := index0 active_contracts in Ok (Some contract)
      else if (1 <? List.length active_contracts)%nat then
        let* active_contracts := sort_by_start_date active_contracts in
        let* contract := index0 active_contracts in Ok (Some contract)
      else
        let* contract :=
          index0 (List.filter
                    (fun contract => delivery_site_id contract =? wanted)
                    contracts) in
        Ok (Some contract)
  end.

(** *** Contract attributes *)

Definition is_type (t : string) (p : Product) : bool :=
  String.eqb (product_type p) t.

Definition get_contract_base_price (self : HelenApiClient)
  (delivery_site_id_ : option Z) : result float :=
  let* contract := _get_contract_by_delivery_site_id self delivery_site_id_ in
  match contract with
  | None => Raise (InvalidApiResponseException "Contract data is empty or None")
  | Some contract =>
      let products := products contract in
      match find (is_type "energy") products with
      | None => Ok 0%float
      | Some product =>
          match find is_base_price (components product) with
          | None => Ok 0%float
          | Some base_price_component => Ok (price base_price_component)
          end
      end
  end.

Definition get_transfer_fee (self : HelenApiClient)
  (delivery_site_id_ : option Z) : result float :=
  let* contract := _get_contract_by_delivery_site_id self delivery_site_id_ in
  match contract with
  | None => Raise (InvalidApiResponseException "Contract data is empty or None")
  | Some contract =>
      let products := products contract in
      match find (is_type "transfer") products with
      | None => Ok 0%float
      | Some product =>
          match find (fun component => String.eqb (name component) "Siirtomaksu")
                     (components product) with
          | None => Ok 0%float
          | Some transfer_fee_component => Ok (price transfer_fee_component)
          end
      end
  end.

Definition get_transfer_base_price (self : HelenApiClient)
  (delivery_site_id_ : option Z) : result float :=
  let* contract := _get_contract_by_delivery_site_id self delivery_site_id_ in
  match contract with
  | None => Raise (InvalidApiResponseException "Contract data is empty or None")
  | Some contract =>
      let products := products contract in
      match find (is_type "transfer") products with
      | None => Ok 0%float
      | Some product =>
          match find is_base_price (components product) with
          | None => Ok 0%float
          | Some transfer_base_price_component =>
              Ok (price transfer_base_price_component)
          end
      end
  end.

(** *** Measurements and spot prices *)

Definition _get_measurements_endpoint_and_delivery_site_id
  (self : HelenApiClient) (delivery_site_id_ : option Z)
  : result (string * Z) :=
  let* contract := _get_contract_by_delivery_site_id self delivery_site_id_ in
  match contract with
  | None => Raise TypeError
  | Some contract =>
      if String.eqb (domain contract) "electricity-transfer"
      then Ok (HELEN_API_URL_V14 ++ TRANSFER_ENDPOINT,
               delivery_site_id contract)
      else Ok (HELEN_API_URL_V14 ++ MEASUREMENTS_ENDPOINT,
               delivery_site_id contract)
  end.

(** The URL and the parameters that [get_daily_measurements_between_dates]
    and [get_hourly_measurements_between_dates] give to [get]; they differ
    in the resolution. *)
Definition measurements_request (self : HelenApiClient) (res : string)
  (start end__ : date) (delivery_site_id_ : option Z)
  : result (string * Params) :=
  let* previous_day := minus_one_day start in
  let start_time := isoformat previous_day ++ "T22:00:00+00:00" in
  let end_time := isoformat end__ ++ "T21:59:59+00:00" in
  let* '(measurements_url, delivery_site_id_) :=
    _get_measurements_endpoint_and_delivery_site_id self delivery_site_id_ in
  let measurements_params :=
    {| begin_ := start_time; end_ := end_time; resolution := res;
       site := delivery_site_id_; allow_transfer := "true" |} in
  Ok (measurements_url, measurements_params).

Definition get_daily_measurements_between_dates (self : HelenApiClient)
  (start end__ : date) (delivery_site_id_ : option Z)
  : result MeasurementResponse :=
  let* '(measurements_url, measurements_params) :=
    measurements_request self "day" start end__ delivery_site_id_ in
  let* _ := _api_request_headers self in
  Ok (measurements_service self measurements_url measurements_params).

Definition get_hourly_measurements_between_dates (self : HelenApiClient)
  (start end__ : date) (delivery_site_id_ : option Z)
  : result MeasurementResponse :=
  let* '(measurements_url, measurements_params) :=
    measurements_request self "hour" start end__ delivery_site_id_ in
  let* _ := _api_request_headers self in
  Ok (measurements_service self measurements_url measurements_params).

(** The URL and the parameters of [get_hourly_spot_prices_between_dates] *)
Definition spot_prices_request (self : HelenApiClient)
  (start end__ : date) (delivery_site_id_ : option Z)
  : result (string * Params) :=
  let* previous_day := minus_one_day start in
  let start_time := isoformat previous_day ++ "T22:00:00+00:00" in
  let end_time := isoformat end__ ++ "T21:59:59+00:00" in
  let* delivery_site_id_ :=
    match delivery_site_id_ with
    | None =>
        let* contract := _get_contract_by_delivery_site_id self None in
        match contract with
        | None => Raise TypeError
        | Some contract => Ok (delivery_site_id contract)
        end
    | Some wanted => Ok wanted
    end in
  let spot_prices_params :=
    {| begin_ := start_time; end_ := end_time; resolution := "hour";
       site := delivery_site_id_; allow_transfer := "true" |} in
  let spot_prices_url := HELEN_API_URL_V14 ++ SPOT_PRICES_ENDPOINT in
  Ok (spot_prices_url, spot_prices_params).

Definition get_hourly_spot_prices_between_dates (self : HelenApiClient)
  (start end__ : date) (delivery_site_id_ : option Z)
  : result SpotPricesResponse :=
  let* '(spot_prices_url, spot_prices_params) :=
    spot_prices_request self start end__ delivery_site_id_ in
  let* _ := _api_request_headers self in
  Ok (spot_prices_service self spot_prices_url spot_prices_params).

(** *** Aggregates *)

Definition is_valid (m : Measurement) : bool := String.eqb (status m) "valid".

(** [list(map(lambda x: x if x.status == 'valid' else None, l))] *)
Definition valid_or_None (l : list Measurement) : list (option Measurement) :=
  map (fun x => if is_valid x then Some x else None) l.

(** [list(filter(lambda x: x is not None, l))] *)
Fixpoint without_nones (l : list (option Measurement)) : list Measurement :=
  match l with
  | [] => []
  | Some x :: l' => x :: without_nones l'
  | None :: l' => without_nones l'
  end.

(** The loop [for i in range(length)] of the two hourly aggregates: the
    term [f price measurement] is appended for every [i] at which neither
    list holds [None]. *)
Definition paired_terms (f : Measurement -> Measurement -> float)
  (hourly_prices hourly_measurements : list (option Measurement))
  (length : nat) : list float :=
  fold_left
    (fun terms i =>
       match nth i hourly_prices None, nth i hourly_measurements None with
       | Some hourly_price, Some hourly_measurement =>
           (terms ++ [f hourly_price hourly_measurement])%list
       | _, _ => terms
       end)
    (seq 0 length) [].

Definition _get_hourly_consumption_costs (self : HelenApiClient)
  (start_date_ end_date_ : date) (delivery_site_id_ : option Z)
  : result (list float) :=
  let* hourly_prices_response :=
    get_hourly_spot_prices_between_dates self start_date_ end_date_
                                         delivery_site_id_ in
  match interval hourly_prices_response with
  | None => Ok []
  | Some interval =>
      let hourly_prices := valid_or_None (measurements interval) in
      let* hourly_measurements_response :=
        get_hourly_measurements_between_dates self start_date_ end_date_
                                              delivery_site_id_ in
      match intervals hourly_measurements_response with
      | None => Raise AttributeError
      | Some intervals =>
          match electricity intervals with
          | [] => Ok []
          | first :: _ =>
              let hourly_measurements :=
                valid_or_None (measurements first) in
              let length := Nat.min (List.length hourly_prices)
                                    (List.length hourly_measurements) in
              if (length =? 0)%nat then Ok []
              else
                Ok (paired_terms
                      (fun hourly_price hourly_measurement =>
                         let hourly_price_with_tax_and_margin :=
                           PrimFloat.add (value hourly_price) (_margin self) in
                         PrimFloat.abs
                           (PrimFloat.mul hourly_price_with_tax_and_margin
                                          (value hourly_measurement)))
                      hourly_prices hourly_measurements length)
          end
      end
  end.

Definition get_total_consumption_between_dates (self : HelenApiClient)
  (start_date_ end_date_ : date) (delivery_site_id_ : option Z)
  : result float :=
  let* daily_measurements_response :=
    get_daily_measurements_between_dates self start_date_ end_date_
                                         delivery_site_id_ in
  match intervals daily_measurements_response with
  | None => Raise AttributeError
  | Some intervals =>
      let* first := index0 (electricity intervals) in
      let daily_measurements := List.filter is_valid (measurements first) in
      let total_consumption :=
        py_sum (map (fun measurement => PrimFloat.abs (value measurement))
                    daily_measurements) in
      Ok total_consumption
  end.

Definition calculate_transfer_fees_between_dates (self : HelenApiClient)
  (start_date_ end_date_ : date) (delivery_site_id_ : option Z)
  : result float :=
  let* total_consumption :=
    get_total_consumption_between_dates self start_date_ end_date_
                                        delivery_site_id_ in
  let* transfer_fee := get_transfer_fee self delivery_site_id_ in
  let total_price := PrimFloat.mul total_consumption transfer_fee in
  let* base_price := get_transfer_base_price self delivery_site_id_ in
  let total_price_in_euros :=
    PrimFloat.add (PrimFloat.div total_price 100%float) base_price in
  Ok total_price_in_euros.

Definition calculate_total_costs_by_spot_prices_between_dates
  (self : HelenApiClient) (start_date_ end_date_ : date)
  (delivery_site_id_ : option Z) : result float :=
  let* hourly_consumption_costs :=
    _get_hourly_consumption_costs self start_date_ end_date_
                                  delivery_site_id_ in
  let total_price := py_sum hourly_consumption_costs in
  let total_price_with_tax_in_euros :=
    PrimFloat.div
      (PrimFloat.mul total_price (PrimFloat.add 1%float (_tax self)))
      100%float in
  Ok total_price_with_tax_in_euros.

Definition calculate_impact_of_usage_between_dates (self : HelenApiClient)
  (start_date_ end_date_ : date) (delivery_site_id_ : option Z)
  : result float :=
  let* hourly_prices_response :=
    get_hourly_spot_prices_between_dates self start_date_ end_date_
                                         delivery_site_id_ in
  match interval hourly_prices_response with
  | None => Ok 0%float
  | Some interval =>
      let hourly_prices := valid_or_None (measurements interval) in
      let* hourly_measurements_response :=
        get_hourly_measurements_between_dates self start_date_ end_date_
                                              delivery_site_id_ in
      match intervals hourly_measurements_response with
      | None => Ok 0%float
      | Some intervals =>
          match electricity intervals with
          | [] => Ok 0%float
          | first :: _ =>
              let hourly_measurements :=
                valid_or_None (measurements first) in
              let length := Nat.min (List.length hourly_prices)
                                    (List.length hourly_measurements) in
              if (length =? 0)%nat then Ok 0%float
              else
                let hourly_prices_without_nones :=
                  without_nones hourly_prices in
                let hourly_measurements_without_nones :=
                  without_nones hourly_measurements in
                let hourly_weighted_consumption_prices :=
                  paired_terms
                    (fun hourly_price hourly_measurement =>
                       PrimFloat.abs
                         (PrimFloat.mul (value hourly_price)
                                        (value hourly_measurement)))
                    hourly_prices hourly_measurements length in
                match hourly_weighted_consumption_prices with
                | [] => Ok 0%float
                | _ :: _ =>
                    let* monthly_average_price :=
                      py_truediv
                        (py_sum (map (fun price => PrimFloat.abs (value price))
                                     hourly_prices_without_nones))
                        (float_of_len
                           (List.length hourly_prices_without_nones)) in
                    let total_consumption :=
                      py_sum (map (fun measurement =>
                                     PrimFloat.abs (value measurement))
                                  hourly_measurements_without_nones) in
                    let total_hourly_weighted_consumption_prices :=
                      py_sum hourly_weighted_consumption_prices in
                    let total_consumption_average_price :=
                      PrimFloat.mul monthly_average_price total_consumption in
                    let* impact :=
                      py_truediv
                        (PrimFloat.sub total_hourly_weighted_consumption_prices
                                       total_consumption_average_price)
                        total_consumption in
                    Ok impact
                end
          end
      end
  end.

(** *** The other accessors *)

Definition get_latest_active_delivery_site_id (self : HelenApiClient)
  : result Z :=
  let* contract := _get_contract_by_delivery_site_id self None in
  match contract with
  | None => Raise TypeError
  | Some contract => Ok (delivery_site_id contract)
  end.

Definition get_contract_energy_unit_price (self : HelenApiClient)
  (delivery_site_id_ : option Z) : result float :=
  let* contract := _get_contract_by_delivery_site_id self delivery_site_id_ in
  match contract with
  | None => Raise (InvalidApiResponseException "Contract data is empty or None")
  | Some contract =>
      let products := products contract in
      match find (is_type "energy") products with
      | None => Ok 0%float
      | Some product =>
          match find (fun component => String.eqb (name component) "Energia")
                     (components product) with
          | None => Ok 0%float
          | Some energy_unit_price_component =>
              Ok (price energy_unit_price_component)
          end
      end
  end.

(** [f"{year}"] for an [int] *)
Definition str_int (n : Z) : string := NilZero.string_of_int (Z.to_int n).

(** The URL and the parameters of [get_monthly_measurements_by_year] *)
Definition monthly_measurements_request (self : HelenApiClient)
  (year_ : Z) (delivery_site_id_ : option Z) : result (string * Params) :=
  let last_year := year_ - 1 in
  let start_time := str_int last_year ++ "-12-31T22:00:00+00:00" in
  let end_time := str_int year_ ++ "-12-31T21:59:59+00:00" in
  let* '(measurements_url, delivery_site_id_) :=
    _get_measurements_endpoint_and_delivery_site_id self delivery_site_id_ in
  let measurements_params :=
    {| begin_ := start_time; end_ := end_time; resolution := "month";
       site := delivery_site_id_; allow_transfer := "true" |} in
  Ok (measurements_url, measurements_params).

Definition get_monthly_measurements_by_year (self : HelenApiClient)
  (year_ : Z) (delivery_site_id_ : option Z) : result MeasurementResponse :=
  let* '(measurements_url, measurements_params) :=
    monthly_measurements_request self year_ delivery_site_id_ in
  let* _ := _api_request_headers self in
  Ok (measurements_service self measurements_url measurements_params).

(** [t - timedelta(hours=1)]: an hour earlier, on the day before when [t]
    is in the first hour of its day; before [datetime.min] the subtraction
    raises. *)
Definition minus_one_hour (t : datetime) : result datetime :=
  if 1 <=? hour t then
    Ok {| on := on t; hour := hour t - 1; minute := minute t;
          second := second t; microsecond := microsecond t |}
  else
    let* previous_day := minus_one_day (on t) in
    Ok {| on := previous_day; hour := 23; minute := minute t;
          second := second t; microsecond := microsecond t |}.

(** [is_session_valid], of the time [_latest_login_time] of the latest
    login ([None] before any) and the instant [now] that it reads. *)
Definition is_session_valid (_latest_login_time : option datetime)
  (now : datetime) : result bool :=
  match _latest_login_time with
  | None => Ok false
  | Some latest =>
      let* an_hour_ago := minus_one_hour now in
      let is_latest_login_within_hour :=
        dt_geb latest an_hour_ago && dt_geb now latest in
      Ok is_latest_login_within_hour
  end.

(** * Specifications

    The predicates and formulas the properties are stated with. *)

Definition start_dates_parse (contracts : list Contract) : Prop :=
  Forall (fun contract => exists t, strptime (start_date contract) = Ok t)
         contracts.

(** A contract is active at [now] when it has no end date or one that is
    not before [now], and it is not a production contract. *)
Definition is_active (now : datetime) (contract : Contract) : bool :=
  match end_date contract with
  | None => true
  | Some s => match strptime s with
              | Ok t => dt_geb t now
              | Raise _ => false
              end
  end
  && negb (String.eqb (domain contract) "electricity-production").

Definition end_dates_parse (contracts : list Contract) : Prop :=
  Forall (fun contract =>
            forall s, end_date contract = Some s -> exists t, strptime s = Ok t)
         contracts.


(** The pairs of the [i]-th price and the [i]-th measurement that are both
    valid: the indices beyond the shorter series have no pair. *)
Definition valid_pairs (prices ms : list Measurement)
  : list (Measurement * Measurement) :=
  List.filter (fun pm => is_valid (fst pm) && is_valid (snd pm))
              (combine prices ms).

(** What the loop appends at index [i] *)
Definition term_at (f : Measurement -> Measurement -> float)
  (xs ys : list (option Measurement)) (i : nat) : list float :=
  match nth i xs None, nth i ys None with
  | Some x, Some y => [f x y]
  | _, _ => []
  end.

(** The cost of one hour, in cents before tax *)
Definition hourly_cost (margin : float) (pm : Measurement * Measurement)
  : float :=
  PrimFloat.abs (PrimFloat.mul (PrimFloat.add (value (fst pm)) margin)
                               (value (snd pm))).

Definition abs_value (m : Measurement) : float := PrimFloat.abs (value m).

Definition weighted_price (pm : Measurement * Measurement) : float :=
  PrimFloat.abs (PrimFloat.mul (value (fst pm)) (value (snd pm))).

(** What [calculate_impact_of_usage_between_dates] computes from the
    hourly prices and the hourly measurements of the first series. *)
Definition impact_of (prices ms : list Measurement) : result float :=
  match valid_pairs prices ms with
  | [] => Ok 0%float
  | _ :: _ =>
      let A := py_sum (map weighted_price (valid_pairs prices ms)) in
      let E := py_sum (map abs_value (List.filter is_valid ms)) in
      let* average :=
        py_truediv (py_sum (map abs_value (List.filter is_valid prices)))
                   (float_of_len (List.length (List.filter is_valid prices))) in
      let B := PrimFloat.mul average E in
      py_truediv (PrimFloat.sub A B) E
  end.

(** C3 as it is stated: the average is taken over the valid prices
    themselves, and the consumption [E] is summed over the valid pairs. *)
Definition impact_as_claimed (prices ms : list Measurement) : float :=
  let pairs := valid_pairs prices ms in
  let A := py_sum (map weighted_price pairs) in
  let average :=
    PrimFloat.div (py_sum (map value (List.filter is_valid prices)))
                  (float_of_len (List.length (List.filter is_valid prices))) in
  let E := py_sum (map (fun pm => abs_value (snd pm)) pairs) in
  let B := PrimFloat.mul average E in
  PrimFloat.div (PrimFloat.sub A B) E.

(** [x] is the first element of [l] that passes [f]. *)
Definition first_match {A : Type} (f : A -> bool) (l : list A) (x : A)
  : Prop :=
  exists before after,
    l = (before ++ x :: after)%list /\ f x = true /\
    forall y, In y before -> f y = false.

(** [r] is the price read off [contract]: that of the first component
    passing [pick] in the first product of type [ptype], and [0.0] when
    there is no such product or no such component in it. *)
Definition reads_price (ptype : string) (pick : Component -> bool)
  (contract : Contract) (r : result float) : Prop :=
  ((forall p, In p (products contract) -> is_type ptype p = false) ->
   r = Ok 0%float) /\
  (forall product,
      first_match (is_type ptype) (products contract) product ->
      ((forall c, In c (components product) -> pick c = false) ->
       r = Ok 0%float) /\
      (forall c, first_match pick (components product) c ->
                 r = Ok (price c))).

(** The instants a [datetime] object can hold, and the microseconds from
    the start of the day before 0001-01-01 to an instant. *)
Definition valid_time (t : datetime) : bool :=
  valid_date (on t) &&
  (0 <=? hour t) && (hour t <? 24) &&
  (0 <=? minute t) && (minute t <? 60) &&
  (0 <=? second t) && (second t <? 60) &&
  (0 <=? microsecond t) && (microsecond t <? 1000000).

Definition microseconds (t : datetime) : Z :=
  (((toordinal (on t) * 24 + hour t) * 60 + minute t) * 60 + second t)
  * 1000000 + microsecond t.

(** The cookies of a name in the jar, and what is made of their values:
    values that are missing are passed over until one is present, and a
    further cookie of the name is then a conflict. *)
Definition named (name : string) (s : HelenSession.t)
  : list HelenSession.Cookie :=
  List.filter (fun c => String.eqb (HelenSession.cookie_name c) name)
              (HelenSession.cookies s).

Fixpoint skip_none (values : list (option string)) : list (option string) :=
  match values with
  | None :: values' => skip_none values'
  | _ => values
  end.

Definition missing_token : exn :=
  Exception "No access token found. Log in first".

Definition token_of (values : list (option string)) : result string :=
  match skip_none values with
  | [] => Raise missing_token
  | [None] => Raise missing_token
  | [Some v] => if String.eqb v "" then Raise missing_token else Ok v
  | _ :: _ :: _ => Raise CookieConflictError
  end.

(** * Sample data *)

Definition logged_in : HelenSession.t :=
  {| HelenSession.cookies :=
       [ {| HelenSession.cookie_name := "access-token";
            HelenSession.cookie_value := Some "token";
            HelenSession.cookie_domain := "www.helen.fi";
            HelenSession.cookie_path := "/" |} ] |}.

Definition noon (y m d : Z) : datetime :=
  {| on := {| year := y; month := m; day := d |};
     hour := 12; minute := 0; second := 0; microsecond := 0 |}.

(** A logged-in client on 2024-06-01 with exact tax and margin; the service
    answers [ms] to a measurement request and [ps] to a spot-price one. *)
Definition sample_client (contracts : list Contract)
  (ms : Params -> MeasurementResponse) (ps : SpotPricesResponse)
  : HelenApiClient :=
  {| _tax := 0.25%float;
     _margin := 0.5%float;
     _session := Some logged_in;
     clock := noon 2024 6 1;
     contract_list := contracts;
     measurements_service := fun _ q => ms q;
     spot_prices_service := fun _ _ => ps |}.

Definition nothing_measured : Params -> MeasurementResponse :=
  fun _ => {| intervals := None |}.

Definition no_prices : SpotPricesResponse := {| interval := None |}.

Definition contract_of (dom start : string) (ending : option string)
  (site_id : Z) (ps : list Product) : Contract :=
  {| domain := dom; start_date := start; end_date := ending;
     delivery_site_id := site_id; products := ps |}.

Definition reading (v : float) (st : string) : Measurement :=
  {| value := v; status := st |}.

(** Four hourly prices, the second invalid, and three hourly measurements,
    the third invalid; a contract of site 7 with an energy and a transfer
    product. *)
Definition sample_prices : Series :=
  {| measurements := [reading 7.5 "valid"; reading 100 "invalid";
                      reading 2.5 "valid"; reading 3 "valid"] |}.

Definition sample_hours : Series :=
  {| measurements := [reading 10 "valid"; reading 1 "valid";
                      reading 7 "missing"] |}.

Definition sample_contract : Contract :=
  contract_of "electricity" "2023-01-01T00:00:00" None 7
    [ {| product_type := "energy";
         components := [ {| name := "Energia"; price := 0%float;
                            is_base_price := false |};
                         {| name := "Perusmaksu"; price := 4.5%float;
                            is_base_price := true |} ] |};
      {| product_type := "transfer";
         components := [ {| name := "Siirtomaksu"; price := 5%float;
                            is_base_price := false |};
                         {| name := "Perusmaksu"; price := 6.25%float;
                            is_base_price := true |} ] |} ].

Definition hourly_client (prices hours : Series) : HelenApiClient :=
  sample_client [sample_contract]
    (fun _ => {| intervals := Some {| electricity := [hours] |} |})
    {| interval := Some prices |}.

Definition march_1 : date := {| year := 2024; month := 3; day := 1 |}.
Definition march_31 : date := {| year := 2024; month := 3; day := 31 |}.

Definition series_of (l : list Measurement) : Series := {| measurements := l |}.

Definition sample_days : Series :=
  series_of [reading 10 "valid"; reading 99 "invalid"; reading (-30) "valid"].

Definition daily_client (series : list Series) : HelenApiClient :=
  sample_client [sample_contract]
    (fun _ => {| intervals := Some {| electricity := series |} |})
    no_prices.

Definition cookie (name : string) (value : option string) (dom : string)
  : HelenSession.Cookie :=
  {| HelenSession.cookie_name := name;
     HelenSession.cookie_value := value;
     HelenSession.cookie_domain := dom;
     HelenSession.cookie_path := "/" |}.

Definition jar (l : list HelenSession.Cookie) : HelenSession.t :=
  {| HelenSession.cookies := l |}.

(** The sample client at another instant *)
Definition client_at (now : datetime) (contracts : list Contract)
  : HelenApiClient :=
  {| _tax := 0.25%float;
     _margin := 0.5%float;
     _session := Some logged_in;
     clock := now;
     contract_list := contracts;
     measurements_service := fun _ q => nothing_measured q;
     spot_prices_service := fun _ _ => no_prices |}.

(** A service that answers a measurement request with its window and its
    resolution, as the statuses of three readings. *)
Definition series_response (l : list Measurement) : MeasurementResponse :=
  {| intervals := Some {| electricity := [ {| measurements := l |} ] |} |}.

Definition echo (q : Params) : MeasurementResponse :=
  series_response
    [reading 0 (begin_ q); reading 0 (end_ q); reading 0 (resolution q)].

Definition echo_client : HelenApiClient :=
  sample_client [sample_contract] echo no_prices.

(** * Properties *)

(** ** Reading dates *)

Example strptime_iso :
  strptime "2024-03-31T21:59:59"
  = Ok {| on := {| year := 2024; month := 3; day := 31 |};
          hour := 21; minute := 59; second := 59; microsecond := 0 |}.
Proof. reflexivity. Qed.

Example strptime_short :
  strptime "2024-3-1t7:05:9"
  = Ok {| on := {| year := 2024; month := 3; day := 1 |};
          hour := 7; minute := 5; second := 9; microsecond := 0 |}.
Proof. reflexivity. Qed.

Example strptime_date_only : strptime "2024-01-01" = Raise ValueError.
Proof. reflexivity. Qed.

Example strptime_no_such_day : strptime "2023-02-29T00:00:00" = Raise ValueError.
Proof. reflexivity. Qed.

(** ** The order of instants *)

Lemma lex_compare_refl (a : list Z) : lex_compare a a = Eq.
Proof.
  induction a as [|x a IH]; simpl; [reflexivity|].
  rewrite Z.compare_refl. exact IH.
Qed.

Lemma lex_compare_antisym (a b : list Z) :
  lex_compare b a = CompOpp (lex_compare a b).
Proof.
  revert b. induction a as [|x a IH]; intros [|y b]; simpl; try reflexivity.
  rewrite (Z.compare_antisym x y).
  destruct (x ?= y); simpl; auto.
Qed.

Lemma lex_compare_eq (a b : list Z) : lex_compare a b = Eq -> a = b.
Proof.
  revert b. induction a as [|x a IH]; intros [|y b]; simpl; try discriminate.
  - reflexivity.
  - destruct (Z.compare_spec x y) as [Hxy|Hxy|Hxy]; try discriminate.
    intros Hab. subst. f_equal. auto.
Qed.

Lemma lex_compare_lt_trans (a b c : list Z) :
  lex_compare a b = Lt -> lex_compare b c = Lt -> lex_compare a c = Lt.
Proof.
  revert b c.
  induction a as [|x a IH]; intros [|y b] [|z c]; simpl;
    try discriminate; try reflexivity.
  destruct (Z.compare_spec x y) as [Hxy|Hxy|Hxy];
    destruct (Z.compare_spec y z) as [Hyz|Hyz|Hyz]; try discriminate;
    subst; intros H1 H2.
  - rewrite Z.compare_refl. eauto.
  - apply Z.compare_lt_iff in Hyz. rewrite Hyz. reflexivity.
  - apply Z.compare_lt_iff in Hxy. rewrite Hxy. reflexivity.
  - assert (x < z) as Hxz by lia.
    apply Z.compare_lt_iff in Hxz. rewrite Hxz. reflexivity.
Qed.

Lemma dt_geb_refl (a : datetime) : dt_geb a a = true.
Proof. unfold dt_geb, dt_compare. rewrite lex_compare_refl. reflexivity. Qed.

(** [not (b > a)] is [a >= b]: the order is total. *)
Lemma dt_gtb_false_geb (a b : datetime) : dt_gtb b a = false -> dt_geb a b = true.
Proof.
  unfold dt_gtb, dt_geb, dt_compare.
  rewrite (lex_compare_antisym (dt_fields a) (dt_fields b)).
  destruct (lex_compare (dt_fields a) (dt_fields b)); simpl; congruence.
Qed.

Lemma dt_gtb_geb (a b : datetime) : dt_gtb a b = true -> dt_geb a b = true.
Proof.
  unfold dt_gtb, dt_geb.
  destruct (dt_compare a b); congruence.
Qed.

Lemma lex_compare_gt_lt (a b : list Z) :
  lex_compare a b = Gt -> lex_compare b a = Lt.
Proof. intros H. rewrite lex_compare_antisym, H. reflexivity. Qed.

Lemma dt_geb_trans (a b c : datetime) :
  dt_geb a b = true -> dt_geb b c = true -> dt_geb a c = true.
Proof.
  unfold dt_geb, dt_compare.
  destruct (lex_compare (dt_fields a) (dt_fields b)) eqn:Hab;
    try discriminate;
    destruct (lex_compare (dt_fields b) (dt_fields c)) eqn:Hbc;
    try discriminate; intros _ _.
  - apply lex_compare_eq in Hab. rewrite Hab, Hbc. reflexivity.
  - apply lex_compare_eq in Hab. rewrite Hab, Hbc. reflexivity.
  - apply lex_compare_eq in Hbc. rewrite <- Hbc, Hab. reflexivity.
  - apply lex_compare_gt_lt in Hab, Hbc.
    rewrite (lex_compare_antisym (dt_fields c) (dt_fields a)).
    rewrite (lex_compare_lt_trans _ _ _ Hbc Hab). reflexivity.
Qed.

(** ** Filters and maps that cannot raise *)

Lemma filter_r_pure {A : Type} (f : A -> result bool) (g : A -> bool)
  (l : list A) :
  Forall (fun x => f x = Ok (g x)) l -> filter_r f l = Ok (List.filter g l).
Proof.
  induction 1 as [|x l Hx _ IH]; simpl; [reflexivity|].
  rewrite Hx, IH. simpl. reflexivity.
Qed.

Lemma filter_filter_andb {A : Type} (f g : A -> bool) (l : list A) :
  List.filter g (List.filter f l) = List.filter (fun x => f x && g x) l.
Proof.
  induction l as [|x l IH]; simpl; [reflexivity|].
  destruct (f x); simpl; [destruct (g x)|]; rewrite IH; reflexivity.
Qed.

Lemma map_r_total {A B : Type} (f : A -> result B) (l : list A) :
  Forall (fun x => exists y, f x = Ok y) l ->
  exists ys, map_r f l = Ok ys /\ Forall2 (fun x y => f x = Ok y) l ys.
Proof.
  induction 1 as [|x l [y Hy] _ [ys [Hys HF]]]; simpl.
  - exists []. split; [reflexivity | constructor].
  - exists (y :: ys). rewrite Hy, Hys. split; [reflexivity|].
    constructor; assumption.
Qed.

Lemma Forall2_combine_In {A B : Type} (R : A -> B -> Prop)
  (l : list A) (ys : list B) :
  Forall2 R l ys ->
  (forall p, In p (combine ys l) -> R (snd p) (fst p) /\ In (snd p) l) /\
  (forall x, In x l -> exists y, In (y, x) (combine ys l)).
Proof.
  induction 1 as [|x y l ys Hxy _ [IH1 IH2]]; simpl.
  - split; [tauto | intros x []].
  - split.
    + intros p [<-|Hp]; simpl; [tauto|].
      destruct (IH1 p Hp). tauto.
    + intros x' [<-|Hx'].
      * exists y. now left.
      * destruct (IH2 x' Hx') as [y' Hy']. exists y'. now right.
Qed.

(** ** The stable descending sort *)

Section Sorting.

Context {A : Type}.

Lemma insert_desc_length (x : datetime * A) (l : list (datetime * A)) :
  List.length (insert_desc x l) = S (List.length l).
Proof.
  induction l as [|y l IH]; simpl; [reflexivity|].
  destruct (dt_gtb (fst y) (fst x)); simpl; [rewrite IH|]; reflexivity.
Qed.

Lemma sort_desc_length (l : list (datetime * A)) :
  List.length (sort_desc l) = List.length l.
Proof.
  induction l as [|x l IH]; simpl; [reflexivity|].
  rewrite insert_desc_length, IH. reflexivity.
Qed.

(** The first element after the sort has a greatest key. *)
Lemma sort_desc_head (l : list (datetime * A)) (h : datetime * A)
  (t : list (datetime * A)) :
  sort_desc l = h :: t ->
  In h l /\ forall p, In p l -> dt_geb (fst h) (fst p) = true.
Proof.
  revert h t. induction l as [|x l IH]; intros h t; simpl; [discriminate|].
  destruct (sort_desc l) as [|y s] eqn:Hs; simpl.
  - intros [= <- <-].
    assert (l = []) as ->.
    { apply (f_equal (@List.length _)) in Hs. rewrite sort_desc_length in Hs.
      destruct l; [reflexivity | discriminate]. }
    split; [now left|]. intros p [<-|[]]. apply dt_geb_refl.
  - destruct (IH y s eq_refl) as [Hy Hmax].
    destruct (dt_gtb (fst y) (fst x)) eqn:Hgt; intros [= <- <-].
    + split; [now right|].
      intros p [<-|Hp]; [now apply dt_gtb_geb | now apply Hmax].
    + split; [now left|].
      intros p [<-|Hp]; [apply dt_geb_refl|].
      apply dt_geb_trans with (fst y); [now apply dt_gtb_false_geb | now apply Hmax].
Qed.

End Sorting.

Lemma sort_by_start_date_head (contracts : list Contract) :
  start_dates_parse contracts -> contracts <> [] ->
  exists h t th,
    sort_by_start_date contracts = Ok (h :: t) /\
    In h contracts /\
    strptime (start_date h) = Ok th /\
    forall c' t', In c' contracts -> strptime (start_date c') = Ok t' ->
                  dt_geb th t' = true.
Proof.
  intros Hparse Hne. unfold sort_by_start_date.
  destruct (map_r_total _ _ Hparse) as [keys [Hkeys HF]].
  rewrite Hkeys. simpl.
  destruct (Forall2_combine_In _ _ _ HF) as [Hin Hex].
  destruct (sort_desc (combine keys contracts)) as [|h s] eqn:Hs.
  - exfalso. apply (f_equal (@List.length _)) in Hs.
    rewrite sort_desc_length, length_combine in Hs.
    apply Forall2_length in HF. simpl in Hs.
    destruct contracts; [congruence | simpl in *; lia].
  - destruct (sort_desc_head _ _ _ Hs) as [Hh Hmax].
    exists (snd h), (map snd s), (fst h). simpl.
    destruct (Hin h Hh) as [Hkey Hmem].
    repeat split; try assumption.
    intros c' t' Hc' Ht'.
    destruct (Hex c' Hc') as [k Hk].
    destruct (Hin _ Hk) as [Hk' _]. simpl in Hk'.
    assert (k = t') as -> by congruence.
    apply (Hmax _ Hk).
Qed.

(** ** Active contracts *)

Lemma is_active_iff (now : datetime) (contract : Contract) :
  is_active now contract = true <->
  (end_date contract = None \/
   exists s t, end_date contract = Some s /\ strptime s = Ok t
               /\ dt_geb t now = true)
  /\ domain contract <> "electricity-production".
Proof.
  unfold is_active. rewrite andb_true_iff, negb_true_iff.
  rewrite <- (not_true_iff_false (String.eqb _ _)), String.eqb_eq.
  split; intros [H1 H2]; (split; [|exact H2]).
  - destruct (end_date contract) as [s|]; [|now left].
    right. destruct (strptime s) as [t|] eqn:Ht; [|discriminate].
    now exists s, t.
  - destruct H1 as [->|[s [t [-> [-> H]]]]]; [reflexivity | exact H].
Qed.

Lemma filter_active_contracts_spec (self : HelenApiClient)
  (contracts : list Contract) :
  end_dates_parse contracts ->
  filter_active_contracts self contracts
  = Ok (List.filter (is_active (clock self)) contracts).
Proof.
  intros Hend. unfold filter_active_contracts.
  rewrite (filter_r_pure _
             (fun contract =>
                match end_date contract with
                | None => true
                | Some s => match strptime s with
                            | Ok t => dt_geb t (clock self)
                            | Raise _ => false
                            end
                end)).
  - simpl. rewrite filter_filter_andb. reflexivity.
  - eapply Forall_impl; [|exact Hend]. intros c Hc. simpl in Hc.
    destruct (end_date c) as [s|]; [|reflexivity].
    destruct (Hc s eq_refl) as [t Ht].
    unfold _date_is_now_or_later. rewrite Ht. reflexivity.
Qed.


Ltac dates_parse :=
  repeat first
    [ split
    | apply Forall_nil
    | apply Forall_cons
    | (intros ? [= <-])
    | discriminate
    | (eexists; vm_compute; reflexivity) ].

(** C1, as stated, fails on the start dates as the specification writes
    them: ["2023-01-01"] has no time of day, [strptime] rejects it and the
    resolution raises [ValueError] instead of returning the 2024 contract. *)
Lemma latest_active_contract_date_only :
  let c2023 := contract_of "electricity" "2023-01-01" None 1 [] in
  let c2024 := contract_of "electricity" "2024-01-01" None 1 [] in
  _get_latest_active_contract (sample_client [] nothing_measured no_prices)
                              [c2023; c2024]
  = Raise ValueError
  /\ Raise ValueError <> Ok (Some c2024).
Proof. split; [vm_compute; reflexivity | discriminate]. Qed.

(** ** Resolution by delivery site *)

(** C2: when no active contract has the wanted delivery site, the client
    does not search the whole list: it indexes the empty list of active
    matches and raises [IndexError]. *)
Theorem site_lookup_without_active_match
  (self : HelenApiClient) (wanted : Z) (contracts active : list Contract) :
  get_contract_data_json self = Ok contracts ->
  filter_active_contracts self contracts = Ok active ->
  List.filter (fun contract => delivery_site_id contract =? wanted) active = [] ->
  _get_contract_by_delivery_site_id self (Some wanted) = Raise IndexError.
Proof.
  intros Hdata Hactive Hnone. unfold _get_contract_by_delivery_site_id.
  rewrite Hdata. simpl. rewrite Hactive. simpl. rewrite Hnone. reflexivity.
Qed.

Lemma site_lookup_without_active_match_witness :
  let old :=
    contract_of "electricity" "2020-01-01T00:00:00"
                (Some "2021-01-01T00:00:00") 7 [] in
  let self := sample_client [old] nothing_measured no_prices in
  index0 (List.filter (fun contract => delivery_site_id contract =? 7)
                      (contract_list self)) = Ok old
  /\ _get_contract_by_delivery_site_id self (Some 7) = Raise IndexError.
Proof.
  intros old self. split; [reflexivity|].
  apply (site_lookup_without_active_match self 7 [old] []);
    vm_compute; reflexivity.
Defined.

(** The search of the whole list is what the client does when exactly one
    active contract matches: it then returns the first match of the whole
    list, active or not. *)
Lemma site_lookup_single_active_match
  (self : HelenApiClient) (wanted : Z) (contracts active : list Contract)
  (c : Contract) :
  get_contract_data_json self = Ok contracts ->
  filter_active_contracts self contracts = Ok active ->
  List.filter (fun contract => delivery_site_id contract =? wanted) active = [c] ->
  _get_contract_by_delivery_site_id self (Some wanted)
  = let* first :=
      index0 (List.filter (fun contract => delivery_site_id contract =? wanted)
                          contracts) in
    Ok (Some first).
Proof.
  intros Hdata Hactive Hone. unfold _get_contract_by_delivery_site_id.
  rewrite Hdata. simpl. rewrite Hactive. simpl. rewrite Hone. reflexivity.
Qed.

(** ** The base price of a contract *)

Lemma find_all_false {A : Type} (f : A -> bool) (l : list A) :
  (forall x, In x l -> f x = false) -> find f l = None.
Proof.
  induction l as [|x l IH]; simpl; intros H; [reflexivity|].
  rewrite (H x) by now left. apply IH. intros y Hy. apply H. now right.
Qed.

(** C6: [get_contract_base_price] returns [0.0] when the resolved contract
    has an energy product none of whose components is flagged
    [is_base_price], and raises [InvalidApiResponseException] when the
    resolution yields no contract. *)
Theorem get_contract_base_price_spec
  (self : HelenApiClient) (delivery_site_id_ : option Z) :
  (forall contract product,
      _get_contract_by_delivery_site_id self delivery_site_id_
      = Ok (Some contract) ->
      find (is_type "energy") (products contract) = Some product ->
      (forall component, In component (components product) ->
                         is_base_price component = false) ->
      get_contract_base_price self delivery_site_id_ = Ok 0%float) /\
  (_get_contract_by_delivery_site_id self delivery_site_id_ = Ok None ->
   get_contract_base_price self delivery_site_id_
   = Raise (InvalidApiResponseException "Contract data is empty or None")).
Proof.
  unfold get_contract_base_price. split.
  - intros contract product Hc Hp Hnone.
    rewrite Hc. simpl. rewrite Hp.
    rewrite (find_all_false _ _ Hnone). reflexivity.
  - intros Hc. rewrite Hc. reflexivity.
Qed.

Lemma get_contract_base_price_spec_witness :
  let energy :=
    {| product_type := "energy";
       components := [ {| name := "Energia"; price := 8.5%float;
                          is_base_price := false |} ] |} in
  let contract :=
    contract_of "electricity" "2023-01-01T00:00:00" None 7 [energy] in
  get_contract_base_price
    (sample_client [contract] nothing_measured no_prices) None = Ok 0%float
  /\ get_contract_base_price
       (sample_client [] nothing_measured no_prices) None
     = Raise (InvalidApiResponseException "Contract data is empty or None").
Proof.
  intros energy contract. split.
  - apply (proj1 (get_contract_base_price_spec _ None) contract energy).
    + vm_compute. reflexivity.
    + reflexivity.
    + intros component [<-|[]]. reflexivity.
  - apply (proj2 (get_contract_base_price_spec _ None)).
    vm_compute. reflexivity.
Defined.

(** ** The access token *)

Lemma find_loop_named (name : string) (l : list HelenSession.Cookie)
  (toReturn : option string) :
  HelenSession.find_loop name l toReturn
  = HelenSession.find_loop name
      (List.filter (fun c => String.eqb (HelenSession.cookie_name c) name) l)
      toReturn.
Proof.
  revert toReturn. induction l as [|c l IH]; intros toReturn; simpl;
    [reflexivity|].
  destruct (String.eqb (HelenSession.cookie_name c) name) eqn:Hc; simpl.
  - rewrite Hc. destruct toReturn; [reflexivity | apply IH].
  - apply IH.
Qed.

Lemma find_loop_all_named (name : string) (l : list HelenSession.Cookie) :
  Forall (fun c => String.eqb (HelenSession.cookie_name c) name = true) l ->
  HelenSession.find_loop name l None
  = match skip_none (map HelenSession.cookie_value l) with
    | [] => Ok None
    | [v] => Ok v
    | _ :: _ :: _ => Raise CookieConflictError
    end.
Proof.
  induction 1 as [|c l Hc Hl IH]; [reflexivity|].
  cbn [HelenSession.find_loop map skip_none]. rewrite Hc.
  destruct (HelenSession.cookie_value c) as [v|]; [|exact IH].
  destruct Hl as [|c' l Hc' _]; [reflexivity|].
  cbn [HelenSession.find_loop map]. rewrite Hc'. reflexivity.
Qed.

Lemma get_access_token_token_of (s : HelenSession.t) :
  HelenSession.get_access_token s
  = token_of (map HelenSession.cookie_value (named "access-token" s)).
Proof.
  unfold HelenSession.get_access_token, HelenSession.cookies_get,
    HelenSession._find_no_duplicates, token_of, named.
  rewrite find_loop_named, find_loop_all_named.
  - destruct (skip_none _) as [|[[|c v]|] [|w rest]]; reflexivity.
  - apply Forall_forall. intros c Hc. apply filter_In in Hc. tauto.
Qed.

(** C7, as stated, fails on a session that holds an [access-token] cookie
    with an empty value, where the missing-token exception is raised, and
    on one that holds two cookies of the name, where the jar raises
    [CookieConflictError]: in neither is the stored token returned. *)
Lemma access_token_not_returned :
  let blank := jar [cookie "access-token" (Some "") "www.helen.fi"] in
  let twice :=
    jar [cookie "access-token" (Some "a") "login.helen.fi";
         cookie "access-token" (Some "a") "www.helen.fi"] in
  (named "access-token" blank = [cookie "access-token" (Some "") "www.helen.fi"]
   /\ HelenSession.get_access_token blank = Raise missing_token
   /\ Raise missing_token <> Ok "")
  /\
  (HelenSession.get_access_token twice = Raise CookieConflictError
   /\ Raise CookieConflictError <> Ok "a").
Proof. repeat split; try reflexivity; discriminate. Qed.

(** C7 (amended): [get_access_token] raises the missing-token exception
    when the session holds no [access-token] cookie, as on a session that
    has not logged in, and when it holds one whose value is empty or
    absent; it returns the value of the cookie when the session holds
    exactly one [access-token] cookie with a value that is not empty; and
    it raises [CookieConflictError] when a further [access-token] cookie
    follows one that has a value. *)
Theorem get_access_token_spec :
  (forall s,
      HelenSession.get_access_token s
      = token_of (map HelenSession.cookie_value (named "access-token" s))) /\
  HelenSession.get_access_token HelenSession.init = Raise missing_token /\
  (forall s, named "access-token" s = [] ->
             HelenSession.get_access_token s = Raise missing_token) /\
  (forall s c token,
      named "access-token" s = [c] ->
      HelenSession.cookie_value c = Some token -> token <> "" ->
      HelenSession.get_access_token s = Ok token) /\
  (forall s c,
      named "access-token" s = [c] ->
      HelenSession.cookie_value c = Some "" \/
      HelenSession.cookie_value c = None ->
      HelenSession.get_access_token s = Raise missing_token) /\
  (forall s c c' rest v,
      named "access-token" s = c :: c' :: rest ->
      HelenSession.cookie_value c = Some v ->
      HelenSession.get_access_token s = Raise CookieConflictError).
Proof.
  split; [exact get_access_token_token_of|].
  split; [reflexivity|].
  split; [|split; [|split]].
  - intros s Hnone. rewrite get_access_token_token_of, Hnone. reflexivity.
  - intros s c token Hone Hvalue Hne.
    rewrite get_access_token_token_of, Hone. unfold token_of.
    cbn [map skip_none]. rewrite Hvalue.
    destruct (String.eqb_spec token ""); [contradiction | reflexivity].
  - intros s c Hone Hvalue.
    rewrite get_access_token_token_of, Hone. unfold token_of.
    cbn [map skip_none]. destruct Hvalue as [-> | ->]; reflexivity.
  - intros s c c' rest v Hmany Hvalue.
    rewrite get_access_token_token_of, Hmany. unfold token_of.
    cbn [map skip_none]. rewrite Hvalue. reflexivity.
Qed.

Lemma get_access_token_spec_witness :
  HelenSession.get_access_token
    (jar [cookie "JSESSIONID" (Some "1") "www.helen.fi"])
  = Raise missing_token
  /\ HelenSession.get_access_token logged_in = Ok "token".
Proof.
  destruct get_access_token_spec as [_ [_ [Hnone [Hone _]]]].
  split.
  - apply Hnone. reflexivity.
  - apply (Hone logged_in (cookie "access-token" (Some "token") "www.helen.fi")
                "token"); [reflexivity | reflexivity | discriminate].
Defined.

(** ** The hourly pairs *)

Lemma paired_terms_flat_map (f : Measurement -> Measurement -> float)
  (xs ys : list (option Measurement)) (n : nat) :
  paired_terms f xs ys n = flat_map (term_at f xs ys) (seq 0 n).
Proof.
  unfold paired_terms.
  enough (forall l acc,
             fold_left
               (fun terms i =>
                  match nth i xs None, nth i ys None with
                  | Some x, Some y => (terms ++ [f x y])%list
                  | _, _ => terms
                  end) l acc
             = (acc ++ flat_map (term_at f xs ys) l)%list) as H
      by apply (H (seq 0 n) []).
  induction l as [|i l IH]; intros acc; simpl.
  - rewrite app_nil_r. reflexivity.
  - rewrite IH. unfold term_at at 2.
    destruct (nth i xs None), (nth i ys None); simpl;
      rewrite <- ?app_assoc; reflexivity.
Qed.

Lemma flat_map_term_at_cons (f : Measurement -> Measurement -> float)
  (x y : option Measurement) (xs ys : list (option Measurement)) (n : nat) :
  flat_map (term_at f (x :: xs) (y :: ys)) (seq 1 n)
  = flat_map (term_at f xs ys) (seq 0 n).
Proof.
  rewrite <- seq_shift, flat_map_concat_map, map_map.
  rewrite <- flat_map_concat_map. reflexivity.
Qed.

Lemma paired_terms_valid_pairs (f : Measurement -> Measurement -> float)
  (prices ms : list Measurement) :
  paired_terms f (valid_or_None prices) (valid_or_None ms)
    (Nat.min (List.length (valid_or_None prices))
             (List.length (valid_or_None ms)))
  = map (fun pm => f (fst pm) (snd pm)) (valid_pairs prices ms).
Proof.
  rewrite paired_terms_flat_map. unfold valid_or_None, valid_pairs.
  rewrite !length_map.
  revert ms. induction prices as [|p prices IH]; intros [|m ms];
    try reflexivity.
  cbn [List.length Nat.min seq map combine List.filter fst snd].
  cbn [flat_map]. rewrite flat_map_term_at_cons, IH.
  unfold term_at. cbn [nth].
  destruct (is_valid p), (is_valid m); reflexivity.
Qed.

Lemma without_nones_valid (l : list Measurement) :
  without_nones (valid_or_None l) = List.filter is_valid l.
Proof.
  induction l as [|x l IH]; simpl; [reflexivity|].
  destruct (is_valid x); simpl; rewrite IH; reflexivity.
Qed.

Lemma valid_pairs_none (prices ms : list Measurement) :
  (forall i p m, nth_error prices i = Some p -> nth_error ms i = Some m ->
                 is_valid p && is_valid m = false) ->
  valid_pairs prices ms = [].
Proof.
  unfold valid_pairs. revert ms.
  induction prices as [|p prices IH]; intros [|m ms] H; try reflexivity.
  simpl. rewrite (H 0%nat p m eq_refl eq_refl).
  apply IH. intros i p' m'. apply (H (S i)).
Qed.

(** ** Costs by spot prices *)

Lemma hourly_consumption_costs_spec (self : HelenApiClient)
  (start_date_ end_date_ : date) (delivery_site_id_ : option Z)
  (pr : SpotPricesResponse) (mr : MeasurementResponse)
  (prices : Series) (ivs : Intervals) (first : Series) (rest : list Series) :
  get_hourly_spot_prices_between_dates self start_date_ end_date_
                                       delivery_site_id_ = Ok pr ->
  interval pr = Some prices ->
  get_hourly_measurements_between_dates self start_date_ end_date_
                                        delivery_site_id_ = Ok mr ->
  intervals mr = Some ivs ->
  electricity ivs = first :: rest ->
  _get_hourly_consumption_costs self start_date_ end_date_ delivery_site_id_
  = Ok (map (hourly_cost (_margin self))
            (valid_pairs (measurements prices) (measurements first))).
Proof.
  intros Hpr Hint Hmr Hivs Hel. unfold _get_hourly_consumption_costs.
  rewrite Hpr. cbn [bind]. rewrite Hint, Hmr. cbn [bind].
  rewrite Hivs, Hel.
  rewrite <- (paired_terms_valid_pairs
                (fun p m => hourly_cost (_margin self) (p, m))).
  destruct (Nat.eqb_spec
              (Nat.min (List.length (valid_or_None (measurements prices)))
                       (List.length (valid_or_None (measurements first)))) 0)
    as [Hzero|_]; [rewrite Hzero|]; reflexivity.
Qed.

(** C4: the total cost is the sum of [|(price + margin) * measurement|]
    over the pairs of the [i]-th price and the [i]-th measurement that are
    both valid, times [(1 + tax) / 100]; an index at which either status is
    not ['valid'] contributes no term. *)
Theorem total_costs_by_spot_prices_spec (self : HelenApiClient)
  (start_date_ end_date_ : date) (delivery_site_id_ : option Z)
  (pr : SpotPricesResponse) (mr : MeasurementResponse)
  (prices : Series) (ivs : Intervals) (first : Series) (rest : list Series) :
  get_hourly_spot_prices_between_dates self start_date_ end_date_
                                       delivery_site_id_ = Ok pr ->
  interval pr = Some prices ->
  get_hourly_measurements_between_dates self start_date_ end_date_
                                        delivery_site_id_ = Ok mr ->
  intervals mr = Some ivs ->
  electricity ivs = first :: rest ->
  let costs :=
    map (hourly_cost (_margin self))
        (valid_pairs (measurements prices) (measurements first)) in
  _get_hourly_consumption_costs self start_date_ end_date_ delivery_site_id_
  = Ok costs /\
  calculate_total_costs_by_spot_prices_between_dates
    self start_date_ end_date_ delivery_site_id_
  = Ok (PrimFloat.div
          (PrimFloat.mul (py_sum costs) (PrimFloat.add 1%float (_tax self)))
          100%float).
Proof.
  intros Hpr Hint Hmr Hivs Hel costs.
  pose proof (hourly_consumption_costs_spec _ _ _ _ _ _ _ _ _ _
                Hpr Hint Hmr Hivs Hel) as Hcosts.
  split; [exact Hcosts|].
  unfold calculate_total_costs_by_spot_prices_between_dates.
  rewrite Hcosts. reflexivity.
Qed.

Lemma total_costs_by_spot_prices_spec_witness :
  calculate_total_costs_by_spot_prices_between_dates
    (hourly_client sample_prices sample_hours) march_1 march_31 None
  = Ok 1%float.
Proof.
  set (self := hourly_client sample_prices sample_hours).
  assert (get_hourly_spot_prices_between_dates self march_1 march_31 None
          = Ok {| interval := Some sample_prices |}) as Hpr
    by (vm_compute; reflexivity).
  assert (get_hourly_measurements_between_dates self march_1 march_31 None
          = Ok {| intervals := Some {| electricity := [sample_hours] |} |})
    as Hmr by (vm_compute; reflexivity).
  destruct (total_costs_by_spot_prices_spec self march_1 march_31 None
              _ _ sample_prices _ sample_hours [] Hpr eq_refl Hmr
              eq_refl eq_refl) as [_ Htotal].
  rewrite Htotal. vm_compute. reflexivity.
Defined.

(** ** The impact of usage *)

Lemma impact_of_series (self : HelenApiClient)
  (start_date_ end_date_ : date) (delivery_site_id_ : option Z)
  (pr : SpotPricesResponse) (mr : MeasurementResponse)
  (prices : Series) (ivs : Intervals) (first : Series) (rest : list Series) :
  get_hourly_spot_prices_between_dates self start_date_ end_date_
                                       delivery_site_id_ = Ok pr ->
  interval pr = Some prices ->
  get_hourly_measurements_between_dates self start_date_ end_date_
                                        delivery_site_id_ = Ok mr ->
  intervals mr = Some ivs ->
  electricity ivs = first :: rest ->
  calculate_impact_of_usage_between_dates self start_date_ end_date_
                                          delivery_site_id_
  = impact_of (measurements prices) (measurements first).
Proof.
  intros Hpr Hint Hmr Hivs Hel.
  unfold calculate_impact_of_usage_between_dates, impact_of.
  rewrite Hpr. cbn [bind]. rewrite Hint, Hmr. cbn [bind].
  rewrite Hivs, Hel.
  pose proof (paired_terms_valid_pairs
                (fun p m => weighted_price (p, m))
                (measurements prices) (measurements first)) as Hloop.
  unfold weighted_price at 1 in Hloop. cbn [fst snd] in Hloop.
  destruct (Nat.eqb_spec
              (Nat.min (List.length (valid_or_None (measurements prices)))
                       (List.length (valid_or_None (measurements first)))) 0)
    as [Hzero|_].
  - rewrite Hzero in Hloop. cbn in Hloop.
    destruct (valid_pairs (measurements prices) (measurements first));
      [reflexivity | discriminate].
  - rewrite Hloop, !without_nones_valid.
    destruct (valid_pairs (measurements prices) (measurements first))
      as [|pm l]; [reflexivity|].
    cbn [map]. fold abs_value.
    destruct (py_truediv _ (float_of_len _)) as [average|]; cbn [bind];
      [|reflexivity].
    destruct (py_truediv _ _); reflexivity.
Qed.

(** C3, as stated, fails in two ways. With one price and two measurements,
    the second measurement has no price and still counts in the
    consumption: the client returns [-1.0] where the claim gives [0.0].
    With a negative price, the average is taken over absolute values: the
    client returns [0.0] where the claim gives [2.0]. *)
Lemma impact_not_as_claimed :
  let prices1 := [reading 2 "valid"] in
  let prices2 := [reading (-2) "valid"; reading 4 "valid"] in
  let hours := [reading 1 "valid"; reading 1 "valid"] in
  (calculate_impact_of_usage_between_dates
     (hourly_client (series_of prices1) (series_of hours))
     march_1 march_31 None = Ok (-1)%float
   /\ impact_as_claimed prices1 hours = 0%float
   /\ (-1)%float <> 0%float)
  /\
  (calculate_impact_of_usage_between_dates
     (hourly_client (series_of prices2) (series_of hours))
     march_1 march_31 None = Ok 0%float
   /\ impact_as_claimed prices2 hours = 2%float
   /\ 0%float <> 2%float).
Proof.
  repeat split; try (vm_compute; reflexivity); discriminate.
Qed.

(** C3 (amended): with [A] the sum of [|price * measurement|] over the
    indices at which both series are valid, [E] the sum of the absolute
    values of all the valid measurements of the first series, paired or
    not, and [B] the average of the absolute values of all the valid prices
    times [E], the client returns [0.0] when no index is valid in both
    series and otherwise [(A - B) / E], which raises [ZeroDivisionError]
    when [E] is zero. *)
Theorem impact_of_usage_spec (self : HelenApiClient)
  (start_date_ end_date_ : date) (delivery_site_id_ : option Z)
  (pr : SpotPricesResponse) (mr : MeasurementResponse)
  (prices : Series) (ivs : Intervals) (first : Series) (rest : list Series) :
  get_hourly_spot_prices_between_dates self start_date_ end_date_
                                       delivery_site_id_ = Ok pr ->
  interval pr = Some prices ->
  get_hourly_measurements_between_dates self start_date_ end_date_
                                        delivery_site_id_ = Ok mr ->
  intervals mr = Some ivs ->
  electricity ivs = first :: rest ->
  let pairs := valid_pairs (measurements prices) (measurements first) in
  let valid_prices := List.filter is_valid (measurements prices) in
  let A := py_sum (map weighted_price pairs) in
  let E := py_sum (map abs_value (List.filter is_valid (measurements first))) in
  let total := py_sum (map abs_value valid_prices) in
  let n := float_of_len (List.length valid_prices) in
  let impact :=
    calculate_impact_of_usage_between_dates self start_date_ end_date_
                                            delivery_site_id_ in
  (pairs = [] -> impact = Ok 0%float) /\
  (pairs <> [] ->
   impact = let* average := py_truediv total n in
            py_truediv (PrimFloat.sub A (PrimFloat.mul average E)) E) /\
  (pairs <> [] -> PrimFloat.eqb n 0%float = false ->
   PrimFloat.eqb E 0%float = false ->
   impact = Ok (PrimFloat.div
                  (PrimFloat.sub A (PrimFloat.mul (PrimFloat.div total n) E))
                  E)) /\
  (pairs <> [] -> PrimFloat.eqb n 0%float = false ->
   PrimFloat.eqb E 0%float = true ->
   impact = Raise ZeroDivisionError).
Proof.
  intros Hpr Hint Hmr Hivs Hel pairs valid_prices A E total n impact.
  unfold impact.
  rewrite (impact_of_series _ _ _ _ _ _ _ _ _ _ Hpr Hint Hmr Hivs Hel).
  unfold impact_of. fold pairs valid_prices A E total n.
  repeat split.
  - intros ->. reflexivity.
  - destruct pairs; [congruence | reflexivity].
  - intros Hne Hn HE. destruct pairs; [congruence|].
    unfold py_truediv. rewrite Hn. cbn [bind]. rewrite HE. reflexivity.
  - intros Hne Hn HE. destruct pairs; [congruence|].
    unfold py_truediv. rewrite Hn. cbn [bind]. rewrite HE. reflexivity.
Qed.

Lemma impact_of_usage_spec_witness :
  let prices :=
    series_of [reading 6 "valid"; reading 100 "invalid"; reading (-2) "valid"] in
  let hours :=
    series_of [reading 3 "valid"; reading 1 "valid"; reading 9 "invalid";
               reading 4 "valid"] in
  calculate_impact_of_usage_between_dates
    (hourly_client prices hours) march_1 march_31 None = Ok (-1.75)%float.
Proof.
  intros prices hours.
  set (self := hourly_client prices hours).
  assert (get_hourly_spot_prices_between_dates self march_1 march_31 None
          = Ok {| interval := Some prices |}) as Hpr
    by (vm_compute; reflexivity).
  assert (get_hourly_measurements_between_dates self march_1 march_31 None
          = Ok {| intervals := Some {| electricity := [hours] |} |})
    as Hmr by (vm_compute; reflexivity).
  destruct (impact_of_usage_spec self march_1 march_31 None
              _ _ prices _ hours [] Hpr eq_refl Hmr eq_refl eq_refl)
    as [_ [_ [Himpact _]]].
  rewrite Himpact.
  - vm_compute. reflexivity.
  - vm_compute. discriminate.
  - vm_compute. reflexivity.
  - vm_compute. reflexivity.
Defined.

(** C5: the impact is exactly [0.0] when the spot-price response has no
    interval or an empty one, when the measurement response has no
    intervals, no electricity series or an empty first series, and when no
    index is valid in both series. *)
Theorem impact_of_usage_zero (self : HelenApiClient)
  (start_date_ end_date_ : date) (delivery_site_id_ : option Z)
  (pr : SpotPricesResponse) :
  get_hourly_spot_prices_between_dates self start_date_ end_date_
                                       delivery_site_id_ = Ok pr ->
  let impact :=
    calculate_impact_of_usage_between_dates self start_date_ end_date_
                                            delivery_site_id_ in
  (interval pr = None -> impact = Ok 0%float) /\
  (forall prices mr,
      interval pr = Some prices ->
      get_hourly_measurements_between_dates self start_date_ end_date_
                                            delivery_site_id_ = Ok mr ->
      (intervals mr = None -> impact = Ok 0%float) /\
      (forall ivs, intervals mr = Some ivs -> electricity ivs = [] ->
                   impact = Ok 0%float) /\
      (forall ivs first rest,
          intervals mr = Some ivs -> electricity ivs = first :: rest ->
          (measurements prices = [] -> impact = Ok 0%float) /\
          (measurements first = [] -> impact = Ok 0%float) /\
          ((forall i p m,
               nth_error (measurements prices) i = Some p ->
               nth_error (measurements first) i = Some m ->
               is_valid p && is_valid m = false) ->
           impact = Ok 0%float))).
Proof.
  intros Hpr impact. unfold impact. split.
  - intros Hnone. unfold calculate_impact_of_usage_between_dates.
    rewrite Hpr. cbn [bind]. rewrite Hnone. reflexivity.
  - intros prices mr Hint Hmr. split; [|split].
    + intros Hnone. unfold calculate_impact_of_usage_between_dates.
      rewrite Hpr. cbn [bind]. rewrite Hint, Hmr. cbn [bind].
      rewrite Hnone. reflexivity.
    + intros ivs Hivs Hel. unfold calculate_impact_of_usage_between_dates.
      rewrite Hpr. cbn [bind]. rewrite Hint, Hmr. cbn [bind].
      rewrite Hivs, Hel. reflexivity.
    + intros ivs first rest Hivs Hel.
      rewrite (impact_of_series _ _ _ _ _ _ _ _ _ _ Hpr Hint Hmr Hivs Hel).
      unfold impact_of. repeat split.
      * intros ->. reflexivity.
      * intros ->. unfold valid_pairs. rewrite combine_nil. reflexivity.
      * intros Hnone. rewrite (valid_pairs_none _ _ Hnone). reflexivity.
Qed.

Lemma impact_of_usage_zero_witness :
  let prices := series_of [reading 6 "valid"; reading 7 "estimated"] in
  let hours := series_of [reading 3 "invalid"; reading 1 "valid"] in
  calculate_impact_of_usage_between_dates
    (sample_client [sample_contract] nothing_measured no_prices)
    march_1 march_31 None = Ok 0%float
  /\ calculate_impact_of_usage_between_dates
       (hourly_client prices hours) march_1 march_31 None = Ok 0%float.
Proof.
  intros prices hours. split.
  - refine (proj1 (impact_of_usage_zero _ march_1 march_31 None no_prices _) _);
      vm_compute; reflexivity.
  - assert (get_hourly_spot_prices_between_dates
              (hourly_client prices hours) march_1 march_31 None
            = Ok {| interval := Some prices |}) as Hpr
      by (vm_compute; reflexivity).
    destruct (impact_of_usage_zero _ march_1 march_31 None _ Hpr)
      as [_ Hrest].
    destruct (Hrest prices
                {| intervals := Some {| electricity := [hours] |} |}
                eq_refl) as [_ [_ Hseries]].
    { vm_compute. reflexivity. }
    destruct (Hseries {| electricity := [hours] |} hours [] eq_refl eq_refl)
      as [_ [_ Hnone]].
    apply Hnone.
    intros [|[|[|i]]] p m; simpl; try discriminate;
      intros [= <-] [= <-]; reflexivity.
Defined.

(** ** Consumption and transfer fees *)

(** C8: the transfer fees are [total * fee / 100 + base], where [total] is
    the sum of the absolute values of the valid daily measurements of the
    first series, [fee] the transfer fee and [base] the transfer base
    price of the contract. *)
Theorem transfer_fees_spec (self : HelenApiClient)
  (start_date_ end_date_ : date) (delivery_site_id_ : option Z)
  (resp : MeasurementResponse) (ivs : Intervals)
  (first : Series) (rest : list Series) (fee base : float) :
  get_daily_measurements_between_dates self start_date_ end_date_
                                       delivery_site_id_ = Ok resp ->
  intervals resp = Some ivs ->
  electricity ivs = first :: rest ->
  get_transfer_fee self delivery_site_id_ = Ok fee ->
  get_transfer_base_price self delivery_site_id_ = Ok base ->
  let total :=
    py_sum (map abs_value (List.filter is_valid (measurements first))) in
  get_total_consumption_between_dates self start_date_ end_date_
                                      delivery_site_id_ = Ok total /\
  calculate_transfer_fees_between_dates self start_date_ end_date_
                                        delivery_site_id_
  = Ok (PrimFloat.add (PrimFloat.div (PrimFloat.mul total fee) 100%float)
                      base).
Proof.
  intros Hresp Hivs Hel Hfee Hbase total.
  assert (get_total_consumption_between_dates self start_date_ end_date_
                                              delivery_site_id_ = Ok total)
    as Htotal.
  { unfold get_total_consumption_between_dates.
    rewrite Hresp. cbn [bind]. rewrite Hivs, Hel. reflexivity. }
  split; [exact Htotal|].
  unfold calculate_transfer_fees_between_dates.
  rewrite Htotal. cbn [bind]. rewrite Hfee. cbn [bind]. rewrite Hbase.
  reflexivity.
Qed.

Lemma transfer_fees_spec_witness :
  get_total_consumption_between_dates
    (daily_client [sample_days]) march_1 march_31 None = Ok 40%float
  /\ calculate_transfer_fees_between_dates
       (daily_client [sample_days]) march_1 march_31 None = Ok 8.25%float.
Proof.
  set (self := daily_client [sample_days]).
  assert (get_daily_measurements_between_dates self march_1 march_31 None
          = Ok {| intervals := Some {| electricity := [sample_days] |} |})
    as Hresp by (vm_compute; reflexivity).
  assert (get_transfer_fee self None = Ok 5%float) as Hfee
    by (vm_compute; reflexivity).
  assert (get_transfer_base_price self None = Ok 6.25%float) as Hbase
    by (vm_compute; reflexivity).
  destruct (transfer_fees_spec self march_1 march_31 None _ _ sample_days []
              5%float 6.25%float Hresp eq_refl eq_refl Hfee Hbase)
    as [Htotal Hfees].
  rewrite Htotal, Hfees. split; vm_compute; reflexivity.
Defined.

(** C10: when the daily response has an empty [electricity] list, the
    total consumption, and with it the transfer fees, raise [IndexError];
    on an empty hourly [electricity] list the hourly aggregates return
    the empty list of costs, a zero total and a zero impact. *)
Theorem total_consumption_without_series :
  (forall (self : HelenApiClient) (start_date_ end_date_ : date)
          (delivery_site_id_ : option Z)
          (resp : MeasurementResponse) (ivs : Intervals),
      get_daily_measurements_between_dates self start_date_ end_date_
                                           delivery_site_id_ = Ok resp ->
      intervals resp = Some ivs ->
      electricity ivs = [] ->
      get_total_consumption_between_dates self start_date_ end_date_
                                          delivery_site_id_
      = Raise IndexError /\
      calculate_transfer_fees_between_dates self start_date_ end_date_
                                            delivery_site_id_
      = Raise IndexError) /\
  (forall (self : HelenApiClient) (start_date_ end_date_ : date)
          (delivery_site_id_ : option Z)
          (pr : SpotPricesResponse) (prices : Series)
          (mr : MeasurementResponse) (ivs : Intervals),
      get_hourly_spot_prices_between_dates self start_date_ end_date_
                                           delivery_site_id_ = Ok pr ->
      interval pr = Some prices ->
      get_hourly_measurements_between_dates self start_date_ end_date_
                                            delivery_site_id_ = Ok mr ->
      intervals mr = Some ivs ->
      electricity ivs = [] ->
      _get_hourly_consumption_costs self start_date_ end_date_
                                    delivery_site_id_ = Ok [] /\
      calculate_impact_of_usage_between_dates self start_date_ end_date_
                                              delivery_site_id_ = Ok 0%float).
Proof.
  split.
  - intros self start_date_ end_date_ delivery_site_id_ resp ivs
           Hresp Hivs Hel.
    assert (get_total_consumption_between_dates self start_date_ end_date_
                                                delivery_site_id_
            = Raise IndexError) as Htotal.
    { unfold get_total_consumption_between_dates.
      rewrite Hresp. cbn [bind]. rewrite Hivs, Hel. reflexivity. }
    split; [exact Htotal|].
    unfold calculate_transfer_fees_between_dates. rewrite Htotal.
    reflexivity.
  - intros self start_date_ end_date_ delivery_site_id_ pr prices mr ivs
           Hpr Hint Hmr Hivs Hel.
    unfold _get_hourly_consumption_costs,
      calculate_impact_of_usage_between_dates.
    rewrite Hpr. cbn [bind]. rewrite Hint, Hmr. cbn [bind].
    rewrite Hivs, Hel. split; reflexivity.
Qed.

Lemma total_consumption_without_series_witness :
  get_total_consumption_between_dates (daily_client []) march_1 march_31 None
  = Raise IndexError
  /\ calculate_transfer_fees_between_dates
       (daily_client []) march_1 march_31 None = Raise IndexError.
Proof.
  apply (proj1 total_consumption_without_series (daily_client [])
               march_1 march_31 None
               {| intervals := Some {| electricity := [] |} |}
               {| electricity := [] |}).
  - vm_compute. reflexivity.
  - reflexivity.
  - reflexivity.
Defined.

(** ** The query window *)

Lemma days_in_month_bounds (y m : Z) : 28 <= days_in_month y m <= 31.
Proof.
  unfold days_in_month.
  destruct (m =? 2); [destruct (is_leap y); lia|].
  destruct ((m =? 4) || (m =? 6) || (m =? 9) || (m =? 11)); lia.
Qed.

Lemma days_before_month_succ (y m : Z) :
  2 <= m ->
  days_before_month y m = days_before_month y (m - 1) + days_in_month y (m - 1).
Proof.
  intros Hm. unfold days_before_month.
  replace (Z.to_nat (m - 1)) with (S (Z.to_nat (m - 1 - 1))) by lia.
  cbn [days_before_month_nat]. do 2 f_equal. lia.
Qed.

Lemma days_before_year_succ (y : Z) :
  days_before_year (y + 1)
  = days_before_year y + 365 + (if is_leap y then 1 else 0).
Proof.
  unfold days_before_year, is_leap.
  replace (y + 1 - 1) with y by lia.
  destruct (Z.eqb_spec (y mod 4) 0), (Z.eqb_spec (y mod 100) 0),
    (Z.eqb_spec (y mod 400) 0); cbn [negb orb andb];
    Z.to_euclidean_division_equations; lia.
Qed.

Lemma days_in_year (y : Z) :
  days_before_month y 12 + 31 = 365 + (if is_leap y then 1 else 0).
Proof.
  unfold days_before_month. change (Z.to_nat (12 - 1)) with 11%nat.
  cbn [days_before_month_nat]. unfold days_in_month.
  generalize (is_leap y) as leap. intros [|]; vm_compute; reflexivity.
Qed.

(** The day before a date other than [date.min] is a date, and its ordinal
    is one less. *)
Lemma minus_one_day_ordinal (d : date) :
  valid_date d = true ->
  d <> {| year := 1; month := 1; day := 1 |} ->
  exists p, minus_one_day d = Ok p /\ valid_date p = true
            /\ toordinal p = toordinal d - 1.
Proof.
  destruct d as [y m dd]. unfold valid_date, minus_one_day, toordinal.
  cbn [year month day]. intros Hvalid Hmin.
  repeat (apply andb_true_iff in Hvalid; destruct Hvalid as [Hvalid ?]).
  repeat match goal with
         | H : (_ <=? _) = true |- _ => apply Z.leb_le in H
         end.
  destruct (Z.ltb_spec 1 dd) as [Hd|Hd].
  - eexists. split; [reflexivity|]. cbn [year month day]. split; [|lia].
    repeat (apply andb_true_iff; split); apply Z.leb_le; lia.
  - assert (dd = 1) as -> by lia.
    destruct (Z.ltb_spec 1 m) as [Hm|Hm].
    + eexists. split; [reflexivity|]. cbn [year month day].
      pose proof (days_in_month_bounds y (m - 1)). split.
      * repeat (apply andb_true_iff; split); apply Z.leb_le; lia.
      * rewrite (days_before_month_succ y m) by lia. lia.
    + assert (m = 1) as -> by lia.
      destruct (Z.ltb_spec 1 y) as [Hy|Hy].
      * eexists. split; [reflexivity|]. cbn [year month day]. split.
        { repeat (apply andb_true_iff; split); apply Z.leb_le;
            cbn; lia. }
        pose proof (days_before_year_succ (y - 1)) as Hyear.
        replace (y - 1 + 1) with y in Hyear by lia.
        pose proof (days_in_year (y - 1)) as Hdays.
        change (days_before_month y 1) with 0. lia.
      * exfalso. apply Hmin. f_equal. lia.
Qed.

(** C9: for every start date that has a day before it and every end
    date, the daily, the hourly and the spot-price accessor give the
    service a query whose window begins on the day before the start date
    (the date whose ordinal is one less) at 22:00:00 UTC and ends on the
    end date at 21:59:59 UTC, and they return what the service answers to
    that query and nothing else; for [date.min] they raise
    [OverflowError]. For 2024-03-01 to 2024-03-31 the window is
    2024-02-29T22:00:00+00:00 to 2024-03-31T21:59:59+00:00. *)
Theorem query_window :
  (forall (self : HelenApiClient) (start end__ : date)
          (delivery_site_id_ : option Z),
      valid_date start = true ->
      start <> {| year := 1; month := 1; day := 1 |} ->
      exists previous_day,
        valid_date previous_day = true /\
        toordinal previous_day = toordinal start - 1 /\
        let window res id :=
          {| begin_ := isoformat previous_day ++ "T22:00:00+00:00";
             end_ := isoformat end__ ++ "T21:59:59+00:00";
             resolution := res; site := id; allow_transfer := "true" |} in
        (forall url id headers,
            _get_measurements_endpoint_and_delivery_site_id
              self delivery_site_id_ = Ok (url, id) ->
            _api_request_headers self = Ok headers ->
            get_daily_measurements_between_dates self start end__
                                                 delivery_site_id_
            = Ok (measurements_service self url (window "day" id)) /\
            get_hourly_measurements_between_dates self start end__
                                                  delivery_site_id_
            = Ok (measurements_service self url (window "hour" id))) /\
        (forall id headers,
            delivery_site_id_ = Some id \/
            (delivery_site_id_ = None /\
             exists contract,
               _get_contract_by_delivery_site_id self None
               = Ok (Some contract) /\
               delivery_site_id contract = id) ->
            _api_request_headers self = Ok headers ->
            get_hourly_spot_prices_between_dates self start end__
                                                 delivery_site_id_
            = Ok (spot_prices_service self
                    "https://api.omahelen.fi/v14/measurements/electricity/spot-prices"
                    (window "hour" id))) /\
        (forall resp,
            get_daily_measurements_between_dates self start end__
                                                 delivery_site_id_ = Ok resp ->
            exists url id,
              resp = measurements_service self url (window "day" id)) /\
        (forall resp,
            get_hourly_measurements_between_dates self start end__
                                                  delivery_site_id_ = Ok resp ->
            exists url id,
              resp = measurements_service self url (window "hour" id)) /\
        (forall resp,
            get_hourly_spot_prices_between_dates self start end__
                                                 delivery_site_id_ = Ok resp ->
            exists url id,
              resp = spot_prices_service self url (window "hour" id))) /\
  (forall (self : HelenApiClient) (end__ : date)
          (delivery_site_id_ : option Z),
      let first_day := {| year := 1; month := 1; day := 1 |} in
      get_daily_measurements_between_dates self first_day end__
                                           delivery_site_id_
      = Raise OverflowError /\
      get_hourly_measurements_between_dates self first_day end__
                                            delivery_site_id_
      = Raise OverflowError /\
      get_hourly_spot_prices_between_dates self first_day end__
                                           delivery_site_id_
      = Raise OverflowError) /\
  (forall (self : HelenApiClient) (delivery_site_id_ : option Z)
          (url : string) (id : Z) (headers : list (string * string)),
      _get_measurements_endpoint_and_delivery_site_id self delivery_site_id_
      = Ok (url, id) ->
      _api_request_headers self = Ok headers ->
      let window res :=
        {| begin_ := "2024-02-29T22:00:00+00:00";
           end_ := "2024-03-31T21:59:59+00:00";
           resolution := res; site := id; allow_transfer := "true" |} in
      get_daily_measurements_between_dates
        self {| year := 2024; month := 3; day := 1 |}
        {| year := 2024; month := 3; day := 31 |} delivery_site_id_
      = Ok (measurements_service self url (window "day")) /\
      get_hourly_measurements_between_dates
        self {| year := 2024; month := 3; day := 1 |}
        {| year := 2024; month := 3; day := 31 |} delivery_site_id_
      = Ok (measurements_service self url (window "hour"))).
Proof.
  split; [|split].
  - intros self start end__ delivery_site_id_ Hvalid Hmin.
    destruct (minus_one_day_ordinal start Hvalid Hmin)
      as [p [Hp [Hvp Hop]]].
    exists p. split; [exact Hvp|]. split; [exact Hop|].
    cbv zeta. split; [|split; [|split; [|split]]].
    + intros url id headers Hendpoint Hheaders.
      unfold get_daily_measurements_between_dates,
        get_hourly_measurements_between_dates, measurements_request.
      rewrite Hp. cbn [bind]. rewrite Hendpoint. cbn [bind].
      rewrite Hheaders. split; reflexivity.
    + intros id headers Hsite Hheaders.
      unfold get_hourly_spot_prices_between_dates, spot_prices_request.
      rewrite Hp. cbn [bind].
      destruct Hsite as [-> | [-> [contract [-> <-]]]]; cbn [bind];
        rewrite Hheaders; reflexivity.
    + intros resp.
      unfold get_daily_measurements_between_dates, measurements_request.
      rewrite Hp. cbn [bind].
      destruct (_get_measurements_endpoint_and_delivery_site_id _ _)
        as [[u i]|]; cbn [bind]; [|discriminate].
      destruct (_api_request_headers self); cbn [bind]; [|discriminate].
      intros [= <-]. now exists u, i.
    + intros resp.
      unfold get_hourly_measurements_between_dates, measurements_request.
      rewrite Hp. cbn [bind].
      destruct (_get_measurements_endpoint_and_delivery_site_id _ _)
        as [[u i]|]; cbn [bind]; [|discriminate].
      destruct (_api_request_headers self); cbn [bind]; [|discriminate].
      intros [= <-]. now exists u, i.
    + intros resp.
      unfold get_hourly_spot_prices_between_dates, spot_prices_request.
      rewrite Hp. cbn [bind].
      match goal with
      | |- bind (bind ?r _) _ = _ -> _ => destruct r as [i|]
      end; cbn [bind]; [|discriminate].
      destruct (_api_request_headers self); cbn [bind]; [|discriminate].
      intros [= <-]. now eexists _, i.
  - intros self end__ delivery_site_id_. repeat split; reflexivity.
  - intros self delivery_site_id_ url id headers Hendpoint Hheaders.
    unfold get_daily_measurements_between_dates,
      get_hourly_measurements_between_dates, measurements_request.
    change (minus_one_day {| year := 2024; month := 3; day := 1 |})
      with (Ok {| year := 2024; month := 2; day := 29 |}).
    cbn [bind]. rewrite Hendpoint. cbn [bind]. rewrite Hheaders.
    split; reflexivity.
Qed.

Lemma query_window_witness :
  get_daily_measurements_between_dates echo_client march_1 march_31 None
  = Ok (series_response
          [reading 0 "2024-02-29T22:00:00+00:00";
           reading 0 "2024-03-31T21:59:59+00:00";
           reading 0 "day"]).
Proof.
  exact (proj1 (proj2 (proj2 query_window) echo_client None
                      "https://api.omahelen.fi/v14/measurements/electricity"
                      7 [("Authorization", "Bearer token");
                         ("Accept", "application/json")]
                      eq_refl eq_refl)).
Defined.

(** * Further properties *)

(** ** What the filter of active contracts can do *)

Lemma strptime_raises_ValueError (s : string) (e : exn) :
  strptime s = Raise e -> e = ValueError.
Proof.
  unfold strptime. destruct (match_format _) as [t|]; [|congruence].
  destruct (valid_date (on t) && (second t <=? 59)); congruence.
Qed.

Lemma filter_r_Ok_inv {A : Type} (f : A -> result bool) (l r : list A) :
  filter_r f l = Ok r -> Forall (fun x => exists b, f x = Ok b) l.
Proof.
  revert r. induction l as [|x l IH]; intros r; simpl; [constructor|].
  destruct (f x) as [b|] eqn:Hx; cbn [bind]; [|discriminate].
  destruct (filter_r f l) as [r'|] eqn:Hl; cbn [bind]; [|discriminate].
  intros _. constructor; [now exists b | now apply (IH r')].
Qed.

Lemma filter_r_Raise_inv {A : Type} (f : A -> result bool) (l : list A)
  (e : exn) :
  filter_r f l = Raise e -> exists x, In x l /\ f x = Raise e.
Proof.
  induction l as [|x l IH]; simpl; [discriminate|].
  destruct (f x) as [b|e'] eqn:Hx; cbn [bind].
  - destruct (filter_r f l) as [r'|e'] eqn:Hl; cbn [bind]; [discriminate|].
    intros [= <-]. destruct (IH eq_refl) as [y [Hy Hfy]].
    exists y. split; [now right | exact Hfy].
  - intros [= <-]. exists x. split; [now left | exact Hx].
Qed.

Lemma filter_active_contracts_Ok (self : HelenApiClient)
  (contracts active : list Contract) :
  filter_active_contracts self contracts = Ok active ->
  end_dates_parse contracts /\
  active = List.filter (is_active (clock self)) contracts.
Proof.
  intros Hactive.
  assert (end_dates_parse contracts) as Hend.
  { unfold filter_active_contracts in Hactive.
    destruct (filter_r _ contracts) as [r|] eqn:Hr; [|discriminate].
    apply filter_r_Ok_inv in Hr. unfold end_dates_parse.
    eapply Forall_impl; [|exact Hr]. intros c [b Hb] s Hs.
    cbn beta in Hb. rewrite Hs in Hb. unfold _date_is_now_or_later in Hb.
    destruct (strptime s) as [t|]; [now exists t | discriminate]. }
  split; [exact Hend|].
  rewrite (filter_active_contracts_spec _ _ Hend) in Hactive. congruence.
Qed.

(** X1: [filter_active_contracts] returns the active contracts, in order,
    exactly when every non-null [end_date] of the list parses, and raises
    [ValueError] exactly when one does not, whichever contract carries
    it. *)
Theorem filter_active_contracts_outcome (self : HelenApiClient)
  (contracts : list Contract) :
  (forall active,
      filter_active_contracts self contracts = Ok active <->
      end_dates_parse contracts /\
      active = List.filter (is_active (clock self)) contracts) /\
  (filter_active_contracts self contracts = Raise ValueError <->
   ~ end_dates_parse contracts) /\
  (forall e, filter_active_contracts self contracts = Raise e ->
             e = ValueError).
Proof.
  assert (forall e, filter_active_contracts self contracts = Raise e ->
                    e = ValueError) as Honly.
  { intros e. unfold filter_active_contracts.
    destruct (filter_r _ contracts) as [r|e'] eqn:Hr; cbn [bind];
      [discriminate|].
    intros [= <-]. apply filter_r_Raise_inv in Hr.
    destruct Hr as [c [_ Hc]]. destruct (end_date c) as [s|]; [|discriminate].
    unfold _date_is_now_or_later in Hc.
    destruct (strptime s) as [t|e''] eqn:Hs; [discriminate|].
    cbn [bind] in Hc. injection Hc as <-.
    now apply (strptime_raises_ValueError s). }
  split; [|split; [|exact Honly]].
  - intros active. split.
    + apply filter_active_contracts_Ok.
    + intros [Hend ->]. now apply filter_active_contracts_spec.
  - split.
    + intros Hraise Hend.
      rewrite (filter_active_contracts_spec _ _ Hend) in Hraise.
      discriminate.
    + intros Hnot.
      destruct (filter_active_contracts self contracts) as [a|e] eqn:Hres.
      * exfalso. apply Hnot.
        exact (proj1 (filter_active_contracts_Ok self _ a Hres)).
      * f_equal. exact (Honly e eq_refl).
Qed.

Lemma filter_active_contracts_outcome_witness :
  let stale :=
    contract_of "electricity-production" "2020-01-01T00:00:00"
                (Some "2021-01-01") 1 [] in
  let current := contract_of "electricity" "2023-01-01T00:00:00" None 2 [] in
  filter_active_contracts (sample_client [] nothing_measured no_prices)
                          [current; stale] = Raise ValueError.
Proof.
  intros stale current.
  apply (proj2 (proj1 (proj2 (filter_active_contracts_outcome _ _)))).
  intros Hend. unfold end_dates_parse in Hend.
  apply Forall_inv_tail, Forall_inv in Hend.
  destruct (Hend "2021-01-01" eq_refl) as [t Ht]. discriminate.
Defined.

(** X2: contracts only expire. A contract that [filter_active_contracts]
    keeps at some instant is kept at every earlier instant; the start date
    plays no part. *)
Theorem active_contracts_earlier (self later : HelenApiClient)
  (contracts active active_later : list Contract) :
  dt_geb (clock later) (clock self) = true ->
  filter_active_contracts self contracts = Ok active ->
  filter_active_contracts later contracts = Ok active_later ->
  forall contract, In contract active_later -> In contract active.
Proof.
  intros Hclock Hnow Hlater contract.
  apply filter_active_contracts_Ok in Hnow, Hlater.
  destruct Hnow as [_ ->], Hlater as [_ ->].
  rewrite !filter_In. intros [Hin Hactive]. split; [exact Hin|].
  unfold is_active in *.
  apply andb_true_iff in Hactive. destruct Hactive as [Hend Hdomain].
  apply andb_true_iff. split; [|exact Hdomain].
  destruct (end_date contract) as [s|]; [|reflexivity].
  destruct (strptime s) as [t|]; [|discriminate].
  now apply dt_geb_trans with (clock later).
Qed.

Lemma active_contracts_earlier_witness :
  let brief :=
    contract_of "electricity" "2024-01-01T00:00:00"
                (Some "2024-06-05T00:00:00") 1 [] in
  let lasting :=
    contract_of "electricity" "2024-01-01T00:00:00"
                (Some "2024-06-15T00:00:00") 2 [] in
  In lasting [brief; lasting].
Proof.
  intros brief lasting.
  apply (active_contracts_earlier
           (client_at (noon 2024 6 1) []) (client_at (noon 2024 6 10) [])
           [brief; lasting] [brief; lasting] [lasting]);
    [vm_compute; reflexivity .. | now left].
Defined.

(** ** Resolution by delivery site, continued *)

Section SortingMore.

Context {A : Type}.

Lemma insert_desc_In (x p : datetime * A) (l : list (datetime * A)) :
  In p (insert_desc x l) <-> p = x \/ In p l.
Proof.
  induction l as [|y l IH]; simpl.
  - intuition.
  - destruct (dt_gtb (fst y) (fst x)); simpl; rewrite ?IH; intuition.
Qed.

Lemma sort_desc_In (p : datetime * A) (l : list (datetime * A)) :
  In p (sort_desc l) <-> In p l.
Proof.
  induction l as [|x l IH]; simpl; [tauto|].
  rewrite insert_desc_In, IH. intuition.
Qed.

(** The first element after the sort is the first of the list among
    those of greatest key: all that precede it have a smaller key. *)
Lemma sort_desc_head_first (l : list (datetime * A)) (h : datetime * A)
  (t : list (datetime * A)) :
  sort_desc l = h :: t ->
  exists l1 l2, l = (l1 ++ h :: l2)%list /\
                forall p, In p l1 -> dt_gtb (fst h) (fst p) = true.
Proof.
  revert h t. induction l as [|x l IH]; intros h t; simpl; [discriminate|].
  destruct (sort_desc l) as [|y s] eqn:Hs; simpl.
  - intros [= <- <-]. exists [], l. split; [reflexivity | intros p []].
  - destruct (IH y s eq_refl) as [l1 [l2 [-> Hbefore]]].
    destruct (dt_gtb (fst y) (fst x)) eqn:Hgt; intros [= <- <-].
    + exists (x :: l1), l2. split; [reflexivity|].
      intros p [<-|Hp]; [exact Hgt | now apply Hbefore].
    + exists [], (l1 ++ y :: l2)%list. split; [reflexivity | intros p []].
Qed.

End SortingMore.

Lemma map_r_length {A B : Type} (f : A -> result B) (l : list A)
  (ys : list B) :
  map_r f l = Ok ys -> Forall2 (fun x y => f x = Ok y) l ys.
Proof.
  revert ys. induction l as [|x l IH]; intros ys; simpl.
  - intros [= <-]. constructor.
  - destruct (f x) as [y|] eqn:Hx; cbn [bind]; [|discriminate].
    destruct (map_r f l) as [r|] eqn:Hl; cbn [bind]; [|discriminate].
    intros [= <-]. constructor; [exact Hx | now apply IH].
Qed.

Lemma map_snd_combine {A B : Type} (R : A -> B -> Prop) (l : list A)
  (ys : list B) :
  Forall2 R l ys -> map snd (combine ys l) = l.
Proof. induction 1; simpl; congruence. Qed.

Lemma sort_by_start_date_In (contracts sorted : list Contract) :
  sort_by_start_date contracts = Ok sorted ->
  forall c, In c sorted <-> In c contracts.
Proof.
  unfold sort_by_start_date.
  destruct (map_r _ contracts) as [keys|] eqn:Hkeys; cbn [bind];
    [|discriminate].
  intros [= <-] c. apply map_r_length in Hkeys.
  rewrite <- (map_snd_combine _ _ _ Hkeys) at 2.
  rewrite !in_map_iff. split; intros [p [Hp Hin]]; exists p;
    (split; [exact Hp|]); now apply sort_desc_In.
Qed.

Lemma index0_In {A : Type} (l : list A) (x : A) : index0 l = Ok x -> In x l.
Proof. destruct l; simpl; [discriminate|]. intros [= <-]. now left. Qed.

(** The first element that passes a filter, and what precedes it *)
Lemma index0_filter_first {A : Type} (f : A -> bool) (l : list A) (x : A) :
  index0 (List.filter f l) = Ok x ->
  exists before after,
    l = (before ++ x :: after)%list /\ f x = true /\
    forall y, In y before -> f y = false.
Proof.
  induction l as [|a l IH]; simpl; [discriminate|].
  destruct (f a) eqn:Ha; simpl.
  - intros [= <-]. exists [], l. repeat split; [exact Ha | intros y []].
  - intros Hx. destruct (IH Hx) as [before [after [-> [Hfx Hbefore]]]].
    exists (a :: before), after. repeat split; [exact Hfx|].
    intros y [<-|Hy]; [exact Ha | now apply Hbefore].
Qed.

Lemma site_lookup_returns_wanted_site_aux (self : HelenApiClient)
  (wanted : Z) (r : option Contract) :
  _get_contract_by_delivery_site_id self (Some wanted) = Ok r ->
  exists contract,
    r = Some contract /\
    delivery_site_id contract = wanted /\
    In contract (contract_list self).
Proof.
  unfold _get_contract_by_delivery_site_id, get_contract_data_json.
  destruct (_api_request_headers self); cbn [bind]; [|discriminate].
  destruct (filter_active_contracts self (contract_list self))
    as [active|] eqn:Hactive; cbn [bind]; [|discriminate].
  apply filter_active_contracts_Ok in Hactive. destruct Hactive as [_ ->].
  set (matches := List.filter _ (List.filter _ _)).
  assert (forall c, In c matches ->
                    delivery_site_id c = wanted /\ In c (contract_list self))
    as Hmatches.
  { intros c Hc. unfold matches in Hc. rewrite !filter_In in Hc.
    destruct Hc as [[Hin _] Hid]. apply Z.eqb_eq in Hid. tauto. }
  destruct (List.length matches =? 0)%nat.
  { destruct (index0 matches) as [c|] eqn:Hc; cbn [bind]; [|discriminate].
    intros [= <-]. exists c. split; [reflexivity|].
    apply Hmatches. now apply index0_In. }
  destruct (1 <? List.length matches)%nat.
  - destruct (sort_by_start_date matches) as [sorted|] eqn:Hsorted;
      cbn [bind]; [|discriminate].
    destruct (index0 sorted) as [c|] eqn:Hc; cbn [bind]; [|discriminate].
    intros [= <-]. exists c. split; [reflexivity|].
    apply Hmatches, (sort_by_start_date_In _ _ Hsorted). now apply index0_In.
  - destruct (index0 _) as [c|] eqn:Hc; cbn [bind]; [|discriminate].
    intros [= <-]. exists c. split; [reflexivity|].
    apply index0_In in Hc. rewrite filter_In in Hc.
    destruct Hc as [Hin Hid]. apply Z.eqb_eq in Hid. tauto.
Qed.

(** X3: a resolution by delivery site that returns, returns a contract of
    the contract list with the wanted site, never null. *)
Theorem site_lookup_returns_wanted_site (self : HelenApiClient) (wanted : Z)
  (r : option Contract) :
  _get_contract_by_delivery_site_id self (Some wanted) = Ok r ->
  exists contract,
    r = Some contract /\
    delivery_site_id contract = wanted /\
    In contract (contract_list self).
Proof.
  exact (site_lookup_returns_wanted_site_aux self wanted r).
Qed.

Lemma site_lookup_returns_wanted_site_witness :
  exists contract,
    Some sample_contract = Some contract /\
    delivery_site_id contract = 7 /\
    In contract
       (contract_list
          (sample_client [sample_contract] nothing_measured no_prices)).
Proof.
  apply (site_lookup_returns_wanted_site
           (sample_client [sample_contract] nothing_measured no_prices) 7).
  vm_compute. reflexivity.
Defined.

(** X4: when exactly one active contract has the wanted site, the client
    returns the first contract of the whole list with that site, which
    need not be the active one. *)
Theorem site_lookup_one_active_match (self : HelenApiClient) (wanted : Z)
  (contracts active : list Contract) (only : Contract) :
  get_contract_data_json self = Ok contracts ->
  filter_active_contracts self contracts = Ok active ->
  List.filter (fun contract => delivery_site_id contract =? wanted) active
  = [only] ->
  exists first before after,
    _get_contract_by_delivery_site_id self (Some wanted) = Ok (Some first) /\
    contracts = (before ++ first :: after)%list /\
    delivery_site_id first = wanted /\
    forall c, In c before -> delivery_site_id c <> wanted.
Proof.
  intros Hdata Hactive Hone.
  unfold _get_contract_by_delivery_site_id.
  rewrite Hdata. cbn [bind]. rewrite Hactive. cbn [bind]. rewrite Hone.
  cbn [List.length Nat.eqb Nat.ltb Nat.leb].
  destruct (index0 (List.filter _ contracts)) as [first|] eqn:Hfirst.
  - destruct (index0_filter_first _ _ _ Hfirst)
      as [before [after [Hsplit [Hid Hbefore]]]].
    exists first, before, after. cbn [bind]. repeat split.
    + exact Hsplit.
    + now apply Z.eqb_eq.
    + intros c Hc. apply Z.eqb_neq. now apply Hbefore.
  - exfalso.
    apply filter_active_contracts_Ok in Hactive. destruct Hactive as [_ ->].
    assert (In only (List.filter
                       (fun contract => delivery_site_id contract =? wanted)
                       contracts)) as Hin.
    { assert (In only [only]) as Honly by now left.
      rewrite <- Hone in Honly. rewrite !filter_In in Honly.
      rewrite filter_In. tauto. }
    destruct (List.filter
                (fun contract => delivery_site_id contract =? wanted)
                contracts); [destruct Hin | discriminate].
Qed.

Lemma site_lookup_one_active_match_witness :
  let old :=
    contract_of "electricity" "2020-01-01T00:00:00"
                (Some "2021-01-01T00:00:00") 7 [] in
  let current := contract_of "electricity" "2023-01-01T00:00:00" None 7 [] in
  _get_contract_by_delivery_site_id
    (sample_client [old; current] nothing_measured no_prices) (Some 7)
  = Ok (Some old).
Proof.
  intros old current.
  destruct (site_lookup_one_active_match
              (sample_client [old; current] nothing_measured no_prices) 7
              [old; current] [current] current)
    as [first [before [after [Hresult [Hsplit [_ Hbefore]]]]]];
    [vm_compute; reflexivity .. |].
  rewrite Hresult. destruct before as [|c before].
  - injection Hsplit as <- _. reflexivity.
  - injection Hsplit as <- _. exfalso.
    apply (Hbefore old); [now left | reflexivity].
Defined.

(** The sort by start date puts first the contract that is listed first
    among those with the latest start date. *)
Lemma sort_by_start_date_first_latest (contracts : list Contract) :
  start_dates_parse contracts -> contracts <> [] ->
  exists h t th before after,
    sort_by_start_date contracts = Ok (h :: t) /\
    contracts = (before ++ h :: after)%list /\
    strptime (start_date h) = Ok th /\
    (forall c tc, In c before -> strptime (start_date c) = Ok tc ->
                  dt_gtb th tc = true) /\
    (forall c tc, In c contracts -> strptime (start_date c) = Ok tc ->
                  dt_geb th tc = true).
Proof.
  intros Hparse Hne.
  destruct (sort_by_start_date_head contracts Hparse Hne)
    as [h [t [th [Hsort [_ [Hth Hmax]]]]]].
  exists h, t, th.
  unfold sort_by_start_date in Hsort.
  destruct (map_r _ contracts) as [keys|] eqn:Hkeys; cbn [bind] in Hsort;
    [|discriminate].
  apply map_r_length in Hkeys.
  destruct (sort_desc (combine keys contracts)) as [|p s] eqn:Hs;
    [discriminate|].
  injection Hsort as <- <-.
  destruct (sort_desc_head_first _ _ _ Hs) as [l1 [l2 [Hsplit Hbefore]]].
  destruct (Forall2_combine_In _ _ _ Hkeys) as [Hin _].
  exists (map snd l1), (map snd l2). repeat split.
  - unfold sort_by_start_date.
    destruct (map_r_total _ _ Hparse) as [keys' [Hkeys' HF]].
    rewrite Hkeys'. cbn [bind].
    assert (keys' = keys) as ->.
    { clear - HF Hkeys. revert keys' HF.
      induction Hkeys as [|x y l ys Hxy _ IH]; intros keys' HF;
        inversion HF; subst; [reflexivity|].
      f_equal; [congruence | now apply IH]. }
    rewrite Hs. reflexivity.
  - rewrite <- (map_snd_combine _ _ _ Hkeys) at 1.
    rewrite Hsplit, map_app. reflexivity.
  - exact Hth.
  - intros c tc Hc Htc. apply in_map_iff in Hc. destruct Hc as [q [<- Hq]].
    assert (In q (combine keys contracts)) as Hq'.
    { rewrite Hsplit. apply in_or_app. now left. }
    destruct (Hin q Hq') as [Hkey _].
    assert (In p (combine keys contracts)) as Hp'.
    { rewrite Hsplit. apply in_or_app. right. now left. }
    destruct (Hin p Hp') as [Hkeyp _].
    assert (fst q = tc) as <- by congruence.
    assert (fst p = th) as <- by congruence.
    now apply Hbefore.
  - intros c tc Hc Htc. now apply (Hmax c).
Qed.

(** X5: when several active contracts have the wanted site, the client
    returns the one of them with the latest start date, and of several
    with that start date the one listed first. *)
Theorem site_lookup_several_active_matches (self : HelenApiClient)
  (wanted : Z) (contracts active : list Contract) :
  get_contract_data_json self = Ok contracts ->
  filter_active_contracts self contracts = Ok active ->
  let matches :=
    List.filter (fun contract => delivery_site_id contract =? wanted)
                active in
  (2 <= List.length matches)%nat ->
  start_dates_parse matches ->
  exists latest t before after,
    _get_contract_by_delivery_site_id self (Some wanted) = Ok (Some latest) /\
    matches = (before ++ latest :: after)%list /\
    strptime (start_date latest) = Ok t /\
    (forall c tc, In c before -> strptime (start_date c) = Ok tc ->
                  dt_gtb t tc = true) /\
    (forall c tc, In c matches -> strptime (start_date c) = Ok tc ->
                  dt_geb t tc = true).
Proof.
  intros Hdata Hactive matches Hlen Hparse.
  destruct (sort_by_start_date_first_latest matches Hparse)
    as [h [s [th [before [after [Hsort Hrest]]]]]].
  { intros Hnil. rewrite Hnil in Hlen. simpl in Hlen. lia. }
  exists h, th, before, after. split; [|exact Hrest].
  unfold _get_contract_by_delivery_site_id.
  rewrite Hdata. cbn [bind]. rewrite Hactive. cbn [bind]. fold matches.
  destruct (Nat.eqb_spec (List.length matches) 0) as [Hzero|_]; [lia|].
  destruct (Nat.ltb_spec 1 (List.length matches)) as [_|Hone]; [|lia].
  rewrite Hsort. reflexivity.
Qed.

Lemma site_lookup_several_active_matches_witness :
  let earlier := contract_of "electricity" "2023-01-01T00:00:00" None 7 [] in
  let transfer :=
    contract_of "electricity-transfer" "2024-01-01T00:00:00" None 7 [] in
  let energy := contract_of "electricity" "2024-01-01T00:00:00" None 7 [] in
  _get_contract_by_delivery_site_id
    (sample_client [earlier; transfer; energy] nothing_measured no_prices)
    (Some 7)
  = Ok (Some transfer).
Proof.
  intros earlier transfer energy.
  destruct (site_lookup_several_active_matches
              (sample_client [earlier; transfer; energy]
                             nothing_measured no_prices) 7
              [earlier; transfer; energy] [earlier; transfer; energy])
    as [latest [t [before [after [Hresult _]]]]].
  - vm_compute. reflexivity.
  - vm_compute. reflexivity.
  - vm_compute. lia.
  - dates_parse.
  - rewrite Hresult. vm_compute in Hresult. exact (eq_sym Hresult).
Defined.



(** ** Failures that reach the caller *)

Ltac run_with H :=
  repeat first
    [ rewrite H
    | progress cbn [bind]
    | progress unfold
        get_latest_active_delivery_site_id,
        _get_measurements_endpoint_and_delivery_site_id,
        get_contract_base_price, get_contract_energy_unit_price,
        get_transfer_fee, get_transfer_base_price,
        measurements_request, spot_prices_request,
        monthly_measurements_request,
        get_daily_measurements_between_dates,
        get_hourly_measurements_between_dates,
        get_hourly_spot_prices_between_dates,
        get_monthly_measurements_by_year,
        get_total_consumption_between_dates,
        calculate_transfer_fees_between_dates,
        _get_hourly_consumption_costs,
        calculate_total_costs_by_spot_prices_between_dates,
        calculate_impact_of_usage_between_dates ];
  try reflexivity.

Lemma resolution_raises (self : HelenApiClient) (e : exn) :
  get_contract_data_json self = Raise e ->
  forall delivery_site_id_,
    _get_contract_by_delivery_site_id self delivery_site_id_ = Raise e.
Proof.
  intros H delivery_site_id_. unfold _get_contract_by_delivery_site_id.
  rewrite H. reflexivity.
Qed.

(** X7: while no answer is cached for the call, that is, whenever the
    body of a memoised accessor runs, nothing is fetched and nothing is
    computed without an access token: the failure of
    [get_api_access_token] ([AttributeError] before [login], the
    missing-token exception on a session without the cookie) is the
    failure of every accessor and of every aggregate, for every start date
    that has a day before it. *)
Theorem no_token_no_answer (self : HelenApiClient) (e : exn) :
  get_api_access_token self = Raise e ->
  get_contract_data_json self = Raise e /\
  get_latest_active_delivery_site_id self = Raise e /\
  (forall delivery_site_id_,
      get_contract_base_price self delivery_site_id_ = Raise e /\
      get_contract_energy_unit_price self delivery_site_id_ = Raise e /\
      get_transfer_fee self delivery_site_id_ = Raise e /\
      get_transfer_base_price self delivery_site_id_ = Raise e /\
      forall year_,
        get_monthly_measurements_by_year self year_ delivery_site_id_
        = Raise e) /\
  (forall start end__ delivery_site_id_ previous_day,
      minus_one_day start = Ok previous_day ->
      get_daily_measurements_between_dates self start end__ delivery_site_id_
      = Raise e /\
      get_hourly_measurements_between_dates self start end__ delivery_site_id_
      = Raise e /\
      get_hourly_spot_prices_between_dates self start end__ delivery_site_id_
      = Raise e /\
      get_total_consumption_between_dates self start end__ delivery_site_id_
      = Raise e /\
      calculate_transfer_fees_between_dates self start end__ delivery_site_id_
      = Raise e /\
      calculate_total_costs_by_spot_prices_between_dates
        self start end__ delivery_site_id_ = Raise e /\
      calculate_impact_of_usage_between_dates self start end__
                                              delivery_site_id_ = Raise e).
Proof.
  intros Htoken.
  assert (_api_request_headers self = Raise e) as Hheaders.
  { unfold _api_request_headers. rewrite Htoken. reflexivity. }
  assert (get_contract_data_json self = Raise e) as Hdata.
  { unfold get_contract_data_json. rewrite Hheaders. reflexivity. }
  pose proof (resolution_raises self e Hdata) as Hresolve.
  split; [exact Hdata|]. split; [run_with Hresolve|]. split.
  - intros delivery_site_id_. repeat split; try intros year_;
      run_with Hresolve.
  - intros start end__ delivery_site_id_ previous_day Hday.
    assert (get_hourly_spot_prices_between_dates self start end__
                                                 delivery_site_id_ = Raise e)
      as Hspot.
    { unfold get_hourly_spot_prices_between_dates, spot_prices_request.
      rewrite Hday. cbn [bind].
      destruct delivery_site_id_; cbn [bind]; rewrite ?Hresolve;
        cbn [bind]; rewrite ?Hheaders; reflexivity. }
    repeat split; try exact Hspot;
      try (run_with Hspot; fail);
      run_with Hday; run_with Hresolve.
Qed.

Lemma no_token_no_answer_witness :
  let self :=
    {| _tax := 0.25%float; _margin := 0.5%float;
       _session := Some HelenSession.init;
       clock := noon 2024 6 1;
       contract_list := [sample_contract];
       measurements_service := fun _ q => nothing_measured q;
       spot_prices_service := fun _ _ => no_prices |} in
  get_contract_base_price self (Some 7)
  = Raise (Exception "No access token found. Log in first")
  /\ calculate_impact_of_usage_between_dates self march_1 march_31 (Some 7)
     = Raise (Exception "No access token found. Log in first").
Proof.
  intros self.
  destruct (no_token_no_answer
              self (Exception "No access token found. Log in first") eq_refl)
    as [_ [_ [Hprices Hdated]]].
  split.
  - apply Hprices.
  - apply (Hdated march_1 march_31 (Some 7)
                  {| year := 2024; month := 2; day := 29 |} eq_refl).
Defined.



(** ** The prices of a contract *)

Lemma find_first_match {A : Type} (f : A -> bool) (l : list A) (x : A) :
  first_match f l x -> find f l = Some x.
Proof.
  intros [before [after [-> [Hx Hbefore]]]].
  induction before as [|y before IH]; simpl.
  - rewrite Hx. reflexivity.
  - rewrite (Hbefore y) by now left.
    apply IH. intros z Hz. apply Hbefore. now right.
Qed.

Lemma find_reads_price (ptype : string) (pick : Component -> bool)
  (contract : Contract) :
  reads_price ptype pick contract
    match find (is_type ptype) (products contract) with
    | None => Ok 0%float
    | Some product =>
        match find pick (components product) with
        | None => Ok 0%float
        | Some component => Ok (price component)
        end
    end.
Proof.
  split.
  - intros Hnone. rewrite (find_all_false _ _ Hnone). reflexivity.
  - intros product Hproduct. rewrite (find_first_match _ _ _ Hproduct). split.
    + intros Hnone. rewrite (find_all_false _ _ Hnone). reflexivity.
    + intros c Hc. rewrite (find_first_match _ _ _ Hc). reflexivity.
Qed.

(** X9: on a resolved contract the four price accessors never raise. Each
    reads the first product of its type only, energy or transfer, and in
    it the first component it looks for: the one flagged [is_base_price],
    or the one named ["Energia"] or ["Siirtomaksu"]; it returns that
    component's price, and [0.0] when the product or the component is
    missing, also when a later product of the type has the component. *)
Theorem price_accessors_on_contract (self : HelenApiClient)
  (delivery_site_id_ : option Z) (contract : Contract) :
  _get_contract_by_delivery_site_id self delivery_site_id_
  = Ok (Some contract) ->
  reads_price "energy" is_base_price contract
    (get_contract_base_price self delivery_site_id_) /\
  reads_price "energy"
    (fun component => String.eqb (name component) "Energia") contract
    (get_contract_energy_unit_price self delivery_site_id_) /\
  reads_price "transfer"
    (fun component => String.eqb (name component) "Siirtomaksu") contract
    (get_transfer_fee self delivery_site_id_) /\
  reads_price "transfer" is_base_price contract
    (get_transfer_base_price self delivery_site_id_).
Proof.
  intros Hcontract.
  unfold get_contract_base_price, get_contract_energy_unit_price,
    get_transfer_fee, get_transfer_base_price.
  rewrite Hcontract. cbn [bind].
  split; [|split; [|split]]; apply find_reads_price.
Qed.

Lemma price_accessors_on_contract_witness :
  let bare := {| product_type := "transfer"; components := [] |} in
  let full :=
    {| product_type := "transfer";
       components := [ {| name := "Siirtomaksu"; price := 5%float;
                          is_base_price := false |} ] |} in
  let contract :=
    contract_of "electricity" "2023-01-01T00:00:00" None 7 [bare; full] in
  get_transfer_fee
    (sample_client [contract] nothing_measured no_prices) None = Ok 0%float.
Proof.
  intros bare full contract.
  destruct (price_accessors_on_contract
              (sample_client [contract] nothing_measured no_prices)
              None contract) as [_ [_ [[_ Hfee] _]]].
  { vm_compute. reflexivity. }
  apply (Hfee bare).
  - exists [], [full]. repeat split. intros y [].
  - intros c [].
Defined.

(** ** Responses without intervals *)

(** X10: on a measurement response without [intervals] the total
    consumption, the transfer fees and the hourly costs raise
    [AttributeError], while the impact of usage, which tests for it, is
    [0.0]. *)
Theorem measurements_without_intervals :
  (forall (self : HelenApiClient) (start_date_ end_date_ : date)
          (delivery_site_id_ : option Z) (resp : MeasurementResponse),
      get_daily_measurements_between_dates self start_date_ end_date_
                                           delivery_site_id_ = Ok resp ->
      intervals resp = None ->
      get_total_consumption_between_dates self start_date_ end_date_
                                          delivery_site_id_
      = Raise AttributeError /\
      calculate_transfer_fees_between_dates self start_date_ end_date_
                                            delivery_site_id_
      = Raise AttributeError) /\
  (forall (self : HelenApiClient) (start_date_ end_date_ : date)
          (delivery_site_id_ : option Z)
          (pr : SpotPricesResponse) (prices : Series)
          (mr : MeasurementResponse),
      get_hourly_spot_prices_between_dates self start_date_ end_date_
                                           delivery_site_id_ = Ok pr ->
      interval pr = Some prices ->
      get_hourly_measurements_between_dates self start_date_ end_date_
                                            delivery_site_id_ = Ok mr ->
      intervals mr = None ->
      _get_hourly_consumption_costs self start_date_ end_date_
                                    delivery_site_id_
      = Raise AttributeError /\
      calculate_total_costs_by_spot_prices_between_dates
        self start_date_ end_date_ delivery_site_id_
      = Raise AttributeError /\
      calculate_impact_of_usage_between_dates self start_date_ end_date_
                                              delivery_site_id_ = Ok 0%float).
Proof.
  split.
  - intros self start_date_ end_date_ delivery_site_id_ resp Hresp Hnone.
    assert (get_total_consumption_between_dates self start_date_ end_date_
                                                delivery_site_id_
            = Raise AttributeError) as Htotal.
    { unfold get_total_consumption_between_dates.
      rewrite Hresp. cbn [bind]. rewrite Hnone. reflexivity. }
    split; [exact Htotal|].
    unfold calculate_transfer_fees_between_dates. rewrite Htotal.
    reflexivity.
  - intros self start_date_ end_date_ delivery_site_id_ pr prices mr
           Hpr Hint Hmr Hnone.
    assert (_get_hourly_consumption_costs self start_date_ end_date_
                                          delivery_site_id_
            = Raise AttributeError) as Hcosts.
    { unfold _get_hourly_consumption_costs.
      rewrite Hpr. cbn [bind]. rewrite Hint, Hmr. cbn [bind].
      rewrite Hnone. reflexivity. }
    split; [exact Hcosts|]. split.
    + unfold calculate_total_costs_by_spot_prices_between_dates.
      rewrite Hcosts. reflexivity.
    + unfold calculate_impact_of_usage_between_dates.
      rewrite Hpr. cbn [bind]. rewrite Hint, Hmr. cbn [bind].
      rewrite Hnone. reflexivity.
Qed.

Lemma measurements_without_intervals_witness :
  let self :=
    sample_client [sample_contract] nothing_measured
                  {| interval := Some sample_prices |} in
  calculate_total_costs_by_spot_prices_between_dates
    self march_1 march_31 None = Raise AttributeError
  /\ calculate_impact_of_usage_between_dates self march_1 march_31 None
     = Ok 0%float.
Proof.
  intros self.
  destruct (proj2 measurements_without_intervals self march_1 march_31 None
                  {| interval := Some sample_prices |} sample_prices
                  {| intervals := None |})
    as [_ [Hcosts Himpact]];
    [vm_compute; reflexivity .. |].
  split; assumption.
Defined.

(** ** The window of a year *)

Lemma string_app_assoc (a b c : string) : ((a ++ b) ++ c = a ++ b ++ c)%string.
Proof.
  induction a as [|x a' IH]; [reflexivity|].
  change (String x ((a' ++ b) ++ c) = String x (a' ++ b ++ c))%string.
  f_equal. exact IH.
Qed.

Lemma str_int_four_digits (y : Z) :
  1000 <= y <= 9999 -> str_int y = digits 4 y.
Proof.
  intros Hy.
  assert (forallb (fun n => String.eqb (str_int (Z.of_nat n))
                                       (digits 4 (Z.of_nat n)))
                  (seq 1000 (9 * 1000)) = true) as Hall
    by (vm_compute; reflexivity).
  rewrite forallb_forall in Hall.
  specialize (Hall (Z.to_nat y)).
  rewrite Z2Nat.id in Hall by lia.
  apply String.eqb_eq, Hall, in_seq. lia.
Qed.

(** X11: for the years 1001 to 9999, the request of
    [get_monthly_measurements_by_year] is the request that the daily and
    hourly accessors build for the first of January to the 31st of
    December of the year, with the resolution ["month"]. For the year 1000
    the window begins with the three-digit year ["999"]. *)
Theorem monthly_window :
  (forall (self : HelenApiClient) (year_ : Z) (delivery_site_id_ : option Z),
      1001 <= year_ <= 9999 ->
      monthly_measurements_request self year_ delivery_site_id_
      = measurements_request self "month"
          {| year := year_; month := 1; day := 1 |}
          {| year := year_; month := 12; day := 31 |}
          delivery_site_id_) /\
  (forall (self : HelenApiClient) (delivery_site_id_ : option Z)
          (url : string) (q : Params),
      monthly_measurements_request self 1000 delivery_site_id_ = Ok (url, q) ->
      begin_ q = "999-12-31T22:00:00+00:00").
Proof.
  split.
  - intros self year_ delivery_site_id_ Hyear.
    unfold monthly_measurements_request, measurements_request, minus_one_day.
    cbn [year month day].
    replace (1 <? 1) with false by reflexivity.
    destruct (Z.ltb_spec 1 year_) as [_|Hlt]; [|lia].
    cbn [bind]. unfold isoformat. cbn [year month day].
    rewrite <- !str_int_four_digits by lia.
    change (digits 2 12) with "12". change (digits 2 31) with "31".
    rewrite !string_app_assoc. reflexivity.
  - intros self delivery_site_id_ url q.
    unfold monthly_measurements_request.
    destruct (_get_measurements_endpoint_and_delivery_site_id _ _)
      as [[u i]|]; cbn [bind]; [|discriminate].
    intros [= <- <-]. reflexivity.
Qed.

Lemma monthly_window_witness :
  exists url,
    monthly_measurements_request (daily_client [sample_days]) 2024 None
    = Ok (url, {| begin_ := "2023-12-31T22:00:00+00:00";
                  end_ := "2024-12-31T21:59:59+00:00";
                  resolution := "month"; site := 7;
                  allow_transfer := "true" |}).
Proof.
  eexists.
  rewrite (proj1 monthly_window (daily_client [sample_days]) 2024 None)
    by lia.
  vm_compute. reflexivity.
Defined.

(** ** Readings without a partner *)

Lemma combine_app_longer {A B : Type} (l : list A) (l' more : list B) :
  (List.length l <= List.length l')%nat ->
  combine l (l' ++ more) = combine l l'.
Proof.
  revert l'. induction l as [|x l IH]; intros [|y l'] Hlen; simpl in *;
    try reflexivity; [lia|].
  f_equal. apply IH. lia.
Qed.

(** X12: hourly measurements beyond the last hourly price add nothing to
    the costs by spot prices: two clients with the same margin, tax and
    prices, one of which has further measurements after those of the
    other, compute the same total. *)
Theorem unpaired_measurements_cost_nothing (self self' : HelenApiClient)
  (start_date_ end_date_ : date) (delivery_site_id_ : option Z)
  (prices : Series) (ms more : list Measurement) (rest rest' : list Series) :
  _margin self' = _margin self ->
  _tax self' = _tax self ->
  get_hourly_spot_prices_between_dates self start_date_ end_date_
                                       delivery_site_id_
  = Ok {| interval := Some prices |} ->
  get_hourly_spot_prices_between_dates self' start_date_ end_date_
                                       delivery_site_id_
  = Ok {| interval := Some prices |} ->
  get_hourly_measurements_between_dates self start_date_ end_date_
                                        delivery_site_id_
  = Ok {| intervals :=
            Some {| electricity := {| measurements := ms |} :: rest |} |} ->
  get_hourly_measurements_between_dates self' start_date_ end_date_
                                        delivery_site_id_
  = Ok {| intervals :=
            Some {| electricity :=
                      {| measurements := (ms ++ more)%list |} :: rest' |} |} ->
  (List.length (measurements prices) <= List.length ms)%nat ->
  calculate_total_costs_by_spot_prices_between_dates
    self' start_date_ end_date_ delivery_site_id_
  = calculate_total_costs_by_spot_prices_between_dates
      self start_date_ end_date_ delivery_site_id_.
Proof.
  intros Hmargin Htax Hpr Hpr' Hmr Hmr' Hlen.
  unfold calculate_total_costs_by_spot_prices_between_dates.
  rewrite (hourly_consumption_costs_spec self _ _ _ _ _ prices _ _ rest
             Hpr eq_refl Hmr eq_refl eq_refl).
  rewrite (hourly_consumption_costs_spec self' _ _ _ _ _ prices _ _ rest'
             Hpr' eq_refl Hmr' eq_refl eq_refl).
  cbn [bind measurements]. unfold valid_pairs.
  rewrite (combine_app_longer _ _ _ Hlen), Hmargin, Htax. reflexivity.
Qed.

Lemma unpaired_measurements_cost_nothing_witness :
  let prices := series_of [reading 7.5 "valid"] in
  let short := [reading 10 "valid"] in
  let more := [reading 1000 "valid"; reading 3 "valid"] in
  calculate_total_costs_by_spot_prices_between_dates
    (hourly_client prices (series_of (short ++ more))) march_1 march_31 None
  = calculate_total_costs_by_spot_prices_between_dates
      (hourly_client prices (series_of short)) march_1 march_31 None.
Proof.
  intros prices short more.
  apply (unpaired_measurements_cost_nothing
           (hourly_client prices (series_of short))
           (hourly_client prices (series_of (short ++ more)))
           march_1 march_31 None prices short more [] []);
    try reflexivity; vm_compute; reflexivity.
Defined.

(** ** The site and the endpoint of a request *)

(** X13: a measurement request for an explicit site carries that site and
    the resolution asked for; it goes to the transfer endpoint when the
    resolved contract has the domain ['electricity-transfer'] and to the
    electricity endpoint otherwise. A spot-price request for an explicit
    site consults no contract: it is built for every site, whenever the
    start date has a day before it. *)
Theorem request_for_site (self : HelenApiClient) (res : string)
  (start end__ : date) (wanted : Z) :
  (forall url q,
      measurements_request self res start end__ (Some wanted) = Ok (url, q) ->
      site q = wanted /\ resolution q = res /\ allow_transfer q = "true" /\
      exists contract,
        _get_contract_by_delivery_site_id self (Some wanted)
        = Ok (Some contract) /\
        url = if String.eqb (domain contract) "electricity-transfer"
              then "https://api.omahelen.fi/v14/measurements/electricity-transfer"
              else "https://api.omahelen.fi/v14/measurements/electricity") /\
  (forall previous_day,
      minus_one_day start = Ok previous_day ->
      spot_prices_request self start end__ (Some wanted)
      = Ok ("https://api.omahelen.fi/v14/measurements/electricity/spot-prices",
            {| begin_ := isoformat previous_day ++ "T22:00:00+00:00";
               end_ := isoformat end__ ++ "T21:59:59+00:00";
               resolution := "hour"; site := wanted;
               allow_transfer := "true" |})).
Proof.
  split.
  - intros url q. unfold measurements_request.
    destruct (minus_one_day start) as [p|]; cbn [bind]; [|discriminate].
    unfold _get_measurements_endpoint_and_delivery_site_id.
    destruct (_get_contract_by_delivery_site_id self (Some wanted))
      as [r|] eqn:Hr; cbn [bind]; [|discriminate].
    destruct (site_lookup_returns_wanted_site_aux self wanted r Hr)
      as [contract [-> [Hsite _]]].
    destruct (String.eqb (domain contract) "electricity-transfer") eqn:Hdom;
      cbn [bind]; intros [= <- <-]; cbn [site resolution allow_transfer];
      (repeat split; [exact Hsite|]); exists contract; rewrite Hdom;
      split; reflexivity.
  - intros previous_day Hday. unfold spot_prices_request.
    rewrite Hday. reflexivity.
Qed.

Lemma request_for_site_witness :
  let transfer :=
    contract_of "electricity-transfer" "2023-01-01T00:00:00" None 9 [] in
  exists q,
    measurements_request
      (sample_client [transfer] nothing_measured no_prices) "hour"
      march_1 march_31 (Some 9)
    = Ok ("https://api.omahelen.fi/v14/measurements/electricity-transfer", q)
    /\ site q = 9.
Proof.
  intros transfer. eexists. split; [vm_compute; reflexivity|].
  refine (proj1 (proj1 (request_for_site
                          (sample_client [transfer] nothing_measured no_prices)
                          "hour" march_1 march_31 9) _ _ _)).
  vm_compute. reflexivity.
Defined.

(** ** The validity of the session *)

Lemma days_before_month_nat_mono (y : Z) (k j : nat) :
  (k <= j)%nat -> days_before_month_nat y k <= days_before_month_nat y j.
Proof.
  induction 1 as [|j _ IH]; [lia|]. cbn [days_before_month_nat].
  pose proof (days_in_month_bounds y (Z.of_nat (S j))). lia.
Qed.

Lemma days_before_month_mono (y m m' : Z) :
  m <= m' -> days_before_month y m <= days_before_month y m'.
Proof.
  intros H. unfold days_before_month.
  apply days_before_month_nat_mono. lia.
Qed.

Lemma days_before_year_mono (y y' : Z) :
  y <= y' -> days_before_year y <= days_before_year y'.
Proof.
  intros H. replace y' with (y + Z.of_nat (Z.to_nat (y' - y))) by lia.
  induction (Z.to_nat (y' - y)) as [|n IH]; [now rewrite Z.add_0_r|].
  replace (y + Z.of_nat (S n)) with (y + Z.of_nat n + 1) by lia.
  rewrite days_before_year_succ. destruct (is_leap _); lia.
Qed.

Lemma valid_date_bounds (d : date) :
  valid_date d = true ->
  1 <= year d <= 9999 /\ 1 <= month d <= 12 /\
  1 <= day d <= days_in_month (year d) (month d).
Proof.
  unfold valid_date. intros H.
  repeat (apply andb_true_iff in H; destruct H as [H ?]).
  repeat match goal with
         | H : (_ <=? _) = true |- _ => apply Z.leb_le in H
         end.
  lia.
Qed.

(** The ordinals of the days of a year lie after those of the years
    before it and before those of the years after it. *)
Lemma ordinal_in_year (d : date) :
  valid_date d = true ->
  days_before_year (year d) < toordinal d <= days_before_year (year d + 1).
Proof.
  intros H. apply valid_date_bounds in H. destruct H as [_ [Hm Hd]].
  unfold toordinal.
  pose proof (days_before_month_mono (year d) 1 (month d)) as Hlow.
  change (days_before_month (year d) 1) with 0 in Hlow.
  pose proof (days_before_month_succ (year d) (month d + 1)) as Hnext.
  replace (month d + 1 - 1) with (month d) in Hnext by lia.
  pose proof (days_before_month_mono (year d) (month d + 1) 13) as Hhigh.
  pose proof (days_before_month_succ (year d) 13) as Hlast.
  change (13 - 1) with 12 in Hlast.
  change (days_in_month (year d) 12) with 31 in Hlast.
  pose proof (days_in_year (year d)) as Hyear.
  rewrite days_before_year_succ.
  destruct (is_leap (year d)); lia.
Qed.

Lemma toordinal_compare (a b : date) :
  valid_date a = true -> valid_date b = true ->
  lex_compare [year a; month a; day a] [year b; month b; day b]
  = (toordinal a ?= toordinal b).
Proof.
  intros Ha Hb.
  pose proof (ordinal_in_year a Ha) as Hoa.
  pose proof (ordinal_in_year b Hb) as Hob.
  apply valid_date_bounds in Ha, Hb.
  destruct Ha as [_ [Hma Hda]], Hb as [_ [Hmb Hdb]].
  cbn [lex_compare]. symmetry.
  destruct (Z.compare_spec (year a) (year b)) as [Hy|Hy|Hy].
  - unfold toordinal in *. rewrite Hy in *.
    destruct (Z.compare_spec (month a) (month b)) as [Hm|Hm|Hm].
    + rewrite Hm in *.
      destruct (Z.compare_spec (day a) (day b)) as [Hd|Hd|Hd].
      * apply Z.compare_eq_iff. lia.
      * apply Z.compare_lt_iff. lia.
      * apply Z.compare_gt_iff. lia.
    + apply Z.compare_lt_iff.
      pose proof (days_before_month_succ (year b) (month a + 1)) as Hnext.
      replace (month a + 1 - 1) with (month a) in Hnext by lia.
      pose proof (days_before_month_mono (year b) (month a + 1) (month b)).
      lia.
    + apply Z.compare_gt_iff.
      pose proof (days_before_month_succ (year b) (month b + 1)) as Hnext.
      replace (month b + 1 - 1) with (month b) in Hnext by lia.
      pose proof (days_before_month_mono (year b) (month b + 1) (month a)).
      lia.
  - apply Z.compare_lt_iff.
    pose proof (days_before_year_mono (year a + 1) (year b)). lia.
  - apply Z.compare_gt_iff.
    pose proof (days_before_year_mono (year b + 1) (year a)). lia.
Qed.

Lemma valid_time_bounds (t : datetime) :
  valid_time t = true ->
  valid_date (on t) = true /\
  0 <= hour t < 24 /\ 0 <= minute t < 60 /\ 0 <= second t < 60 /\
  0 <= microsecond t < 1000000.
Proof.
  unfold valid_time. remember (valid_date (on t)) as v. intros H.
  repeat (apply andb_true_iff in H; destruct H as [H ?]).
  repeat match goal with
         | H : (_ <=? _) = true |- _ => apply Z.leb_le in H
         | H : (_ <? _) = true |- _ => apply Z.ltb_lt in H
         end.
  repeat split; assumption.
Qed.

Lemma lex_compare_after_three (x1 x2 x3 y1 y2 y3 : Z) (r r' : list Z) :
  lex_compare (x1 :: x2 :: x3 :: r) (y1 :: y2 :: y3 :: r')
  = match lex_compare [x1; x2; x3] [y1; y2; y3] with
    | Eq => lex_compare r r'
    | c => c
    end.
Proof.
  cbn [lex_compare].
  destruct (x1 ?= y1), (x2 ?= y2), (x3 ?= y3); reflexivity.
Qed.

(** Valid instants compare as their microseconds do. *)
Lemma dt_compare_microseconds (a b : datetime) :
  valid_time a = true -> valid_time b = true ->
  dt_compare a b = (microseconds a ?= microseconds b).
Proof.
  intros Ha Hb. apply valid_time_bounds in Ha, Hb.
  destruct Ha as [Hda [Hha [Hma [Hsa Hua]]]].
  destruct Hb as [Hdb [Hhb [Hmb [Hsb Hub]]]].
  unfold dt_compare, dt_fields. rewrite lex_compare_after_three.
  rewrite (toordinal_compare _ _ Hda Hdb). unfold microseconds.
  symmetry.
  destruct (Z.compare_spec (toordinal (on a)) (toordinal (on b)))
    as [Ho|Ho|Ho];
    [|apply Z.compare_lt_iff; lia | apply Z.compare_gt_iff; lia].
  cbn [lex_compare].
  destruct (Z.compare_spec (hour a) (hour b)) as [Hh|Hh|Hh];
    [|apply Z.compare_lt_iff; lia | apply Z.compare_gt_iff; lia].
  destruct (Z.compare_spec (minute a) (minute b)) as [Hm|Hm|Hm];
    [|apply Z.compare_lt_iff; lia | apply Z.compare_gt_iff; lia].
  destruct (Z.compare_spec (second a) (second b)) as [Hs|Hs|Hs];
    [|apply Z.compare_lt_iff; lia | apply Z.compare_gt_iff; lia].
  destruct (Z.compare_spec (microsecond a) (microsecond b)) as [Hu|Hu|Hu];
    [apply Z.compare_eq_iff | apply Z.compare_lt_iff
     | apply Z.compare_gt_iff]; lia.
Qed.

Lemma dt_geb_microseconds (a b : datetime) :
  valid_time a = true -> valid_time b = true ->
  dt_geb a b = (microseconds b <=? microseconds a).
Proof.
  intros Ha Hb. unfold dt_geb. rewrite (dt_compare_microseconds _ _ Ha Hb).
  destruct (Z.compare_spec (microseconds a) (microseconds b));
    symmetry; [apply Z.leb_le | apply Z.leb_gt | apply Z.leb_le]; lia.
Qed.

Lemma minus_one_hour_microseconds (t : datetime) :
  valid_time t = true ->
  on t <> {| year := 1; month := 1; day := 1 |} \/ 1 <= hour t ->
  exists ago,
    minus_one_hour t = Ok ago /\ valid_time ago = true /\
    microseconds ago = microseconds t - 3600000000.
Proof.
  intros Hvalid Hnot_min.
  pose proof (valid_time_bounds t Hvalid) as [Hd [Hh [Hm [Hs Hu]]]].
  assert (forall d h, valid_date d = true -> 0 <= h < 24 ->
            valid_time {| on := d; hour := h; minute := minute t;
                          second := second t;
                          microsecond := microsecond t |} = true)
    as Hbuild.
  { intros d h Hvd Hvh. unfold valid_time. cbn.
    rewrite Hvd. cbn.
    repeat (apply andb_true_iff; split);
      first [apply Z.leb_le | apply Z.ltb_lt]; lia. }
  unfold minus_one_hour. destruct (Z.leb_spec 1 (hour t)) as [Hone|Hzero].
  - eexists. split; [reflexivity|]. split; [apply Hbuild; [exact Hd | lia]|].
    unfold microseconds. cbn. lia.
  - destruct Hnot_min as [Hmin|Hone]; [|lia].
    destruct (minus_one_day_ordinal (on t) Hd Hmin) as [p [Hp [Hvp Hop]]].
    rewrite Hp. cbn [bind]. eexists. split; [reflexivity|].
    split; [apply Hbuild; [exact Hvp | lia]|].
    unfold microseconds. cbn. rewrite Hop. lia.
Qed.

(** X14: before any login the session is not valid. After a login at the
    instant [latest], the session is valid at [now] exactly when [latest]
    is at most an hour (3 600 000 000 microseconds) before [now] and not
    after it; in the first hour of 0001-01-01 the subtraction of the hour
    raises [OverflowError]. *)
Theorem session_valid_within_the_hour :
  (forall now, is_session_valid None now = Ok false) /\
  (forall latest now,
      valid_time latest = true -> valid_time now = true ->
      (on now <> {| year := 1; month := 1; day := 1 |} \/ 1 <= hour now ->
       is_session_valid (Some latest) now
       = Ok ((microseconds now - 3600000000 <=? microseconds latest)
             && (microseconds latest <=? microseconds now))) /\
      (on now = {| year := 1; month := 1; day := 1 |} -> hour now = 0 ->
       is_session_valid (Some latest) now = Raise OverflowError)).
Proof.
  split; [reflexivity|].
  intros latest now Hlatest Hnow. split.
  - intros Hnot_min. unfold is_session_valid.
    destruct (minus_one_hour_microseconds now Hnow Hnot_min)
      as [ago [Hago [Hvalid Hmicro]]].
    rewrite Hago. cbn [bind].
    rewrite (dt_geb_microseconds _ _ Hlatest Hvalid).
    rewrite (dt_geb_microseconds _ _ Hnow Hlatest).
    rewrite Hmicro. reflexivity.
  - intros Hmin Hhour. unfold is_session_valid, minus_one_hour.
    rewrite Hmin, Hhour. reflexivity.
Qed.

Lemma session_valid_within_the_hour_witness :
  let login :=
    {| on := {| year := 2024; month := 2; day := 29 |};
       hour := 23; minute := 30; second := 0; microsecond := 0 |} in
  let later (m : Z) :=
    {| on := march_1; hour := 0; minute := m; second := 0;
       microsecond := 0 |} in
  is_session_valid (Some login) (later 30) = Ok true
  /\ is_session_valid (Some login) (later 31) = Ok false.
Proof.
  intros login later.
  destruct session_valid_within_the_hour as [_ Hvalid].
  split.
  - rewrite (proj1 (Hvalid login (later 30) eq_refl eq_refl));
      [reflexivity | left; discriminate].
  - rewrite (proj1 (Hvalid login (later 31) eq_refl eq_refl));
      [reflexivity | left; discriminate].
Defined.

(** ** Dates that parse are instants *)

Lemma digit_val_range (c : ascii) : is_digit c = true -> 0 <= digit_val c <= 9.
Proof.
  unfold is_digit, digit_val. intros H.
  apply andb_true_iff in H. destruct H as [Hlo Hhi].
  apply Nat.leb_le in Hlo, Hhi. lia.
Qed.

Lemma read_field_range (lo hi : Z) (s r : list ascii) (v : Z) :
  9 <= hi -> read_field lo hi s = Some (v, r) -> lo <= v <= hi.
Proof.
  intros Hhi. unfold read_field.
  destruct s as [|a rest]; [discriminate|].
  destruct (is_digit a) eqn:Ha; [|discriminate].
  apply digit_val_range in Ha.
  assert (forall o, (if lo <=? digit_val a then Some (digit_val a, rest)
                     else None) = Some o -> lo <= fst o <= hi) as Hone.
  { intros o. destruct (Z.leb_spec lo (digit_val a)); [|discriminate].
    intros [= <-]. simpl. lia. }
  destruct rest as [|b rest'].
  - intros H. apply (Hone _ H).
  - destruct (is_digit b).
    + destruct (_ && _) eqn:Hrange; [|discriminate].
      intros [= <- _]. apply andb_true_iff in Hrange.
      destruct Hrange as [H1 H2]. apply Z.leb_le in H1, H2. lia.
    + intros H. apply (Hone _ H).
Qed.

Lemma match_format_time (s : list ascii) (t : datetime) :
  match_format s = Some t ->
  0 <= hour t <= 23 /\ 0 <= minute t <= 59 /\ 0 <= second t
  /\ microsecond t = 0.
Proof.
  unfold match_format. intros H.
  repeat match type of H with
         | mbind _ ?x = Some _ =>
             let E := fresh "E" in
             destruct x as [?|] eqn:E; cbn [mbind option_bind] in H;
             [|discriminate]
         | match ?p with (_, _) => _ end = Some _ => destruct p
         end.
  match type of H with
  | match ?l with [] => _ | _ :: _ => _ end = _ =>
      destruct l; [|discriminate]
  end.
  injection H as <-. cbn [hour minute second microsecond].
  repeat match goal with
         | E : read_field _ _ _ = Some _ |- _ =>
             apply read_field_range in E; [|lia]
         end.
  lia.
Qed.

(** X15: a date that [strptime] accepts is an instant that a [datetime]
    can hold, with no microseconds; so [_date_is_now_or_later], when it
    returns, tells whether the end date is at or after the clock in
    elapsed time. *)
Theorem parsed_dates_are_instants :
  (forall s t, strptime s = Ok t -> valid_time t = true /\ microsecond t = 0)
  /\
  (forall self s b,
      valid_time (clock self) = true ->
      _date_is_now_or_later self s = Ok b ->
      exists end_date_,
        strptime s = Ok end_date_ /\
        b = (microseconds (clock self) <=? microseconds end_date_)).
Proof.
  assert (forall s t, strptime s = Ok t ->
                      valid_time t = true /\ microsecond t = 0) as Hparse.
  { intros s t. unfold strptime.
    destruct (match_format _) as [t'|] eqn:Hmatch; [|discriminate].
    destruct (valid_date (on t') && (second t' <=? 59)) eqn:Hcheck;
      [|discriminate].
    intros [= <-]. apply match_format_time in Hmatch.
    apply andb_true_iff in Hcheck. destruct Hcheck as [Hdate Hsecond].
    apply Z.leb_le in Hsecond. split; [|lia].
    unfold valid_time. rewrite Hdate. cbn [andb].
    repeat (apply andb_true_iff; split);
      first [apply Z.leb_le | apply Z.ltb_lt]; lia. }
  split; [exact Hparse|].
  intros self s b Hclock. unfold _date_is_now_or_later.
  destruct (strptime s) as [t|] eqn:Ht; cbn [bind]; [|discriminate].
  intros [= <-]. exists t. split; [reflexivity|].
  apply dt_geb_microseconds; [apply (Hparse s t Ht) | exact Hclock].
Qed.

Lemma parsed_dates_are_instants_witness :
  exists end_date_,
    strptime "2024-06-01T12:00:00" = Ok end_date_ /\
    true = (microseconds (clock (sample_client [] nothing_measured no_prices))
            <=? microseconds end_date_).
Proof.
  apply (proj2 parsed_dates_are_instants
               (sample_client [] nothing_measured no_prices)
               "2024-06-01T12:00:00" true); reflexivity.
Defined.

(** ** The site of a request without a site *)

Lemma latest_active_contract_is_active (self : HelenApiClient)
  (contracts : list Contract) (c : Contract) :
  _get_latest_active_contract self contracts = Ok (Some c) ->
  In c (List.filter (is_active (clock self)) contracts).
Proof.
  unfold _get_latest_active_contract.
  destruct (filter_active_contracts self contracts) as [active|] eqn:Hactive;
    cbn [bind]; [|discriminate].
  apply filter_active_contracts_Ok in Hactive. destruct Hactive as [_ <-].
  destruct (1 <? List.length active)%nat.
  - destruct (sort_by_start_date active) as [sorted|] eqn:Hsorted;
      cbn [bind]; [|discriminate].
    destruct (List.length sorted =? 0)%nat; [discriminate|].
    destruct (index0 sorted) as [x|] eqn:Hx; cbn [bind]; [|discriminate].
    intros [= <-].
    apply (sort_by_start_date_In _ _ Hsorted). now apply index0_In.
  - cbn [bind]. destruct (List.length active =? 0)%nat; [discriminate|].
    destruct (index0 active) as [x|] eqn:Hx; cbn [bind]; [|discriminate].
    intros [= <-]. now apply index0_In.
Qed.

(** X16: a request built without a site is for the site that
    [get_latest_active_delivery_site_id] returns, which is the site of an
    active contract of the contract list. *)
Theorem requests_without_site (self : HelenApiClient) :
  (forall id,
      get_latest_active_delivery_site_id self = Ok id ->
      exists contract,
        In contract
           (List.filter (is_active (clock self)) (contract_list self)) /\
        delivery_site_id contract = id) /\
  (forall res start end__ url q,
      measurements_request self res start end__ None = Ok (url, q) ->
      get_latest_active_delivery_site_id self = Ok (site q)) /\
  (forall year_ url q,
      monthly_measurements_request self year_ None = Ok (url, q) ->
      get_latest_active_delivery_site_id self = Ok (site q)) /\
  (forall start end__ url q,
      spot_prices_request self start end__ None = Ok (url, q) ->
      get_latest_active_delivery_site_id self = Ok (site q)).
Proof.
  split; [|split; [|split]].
  - intros id. unfold get_latest_active_delivery_site_id,
      _get_contract_by_delivery_site_id, get_contract_data_json.
    destruct (_api_request_headers self); cbn [bind]; [|discriminate].
    destruct (_get_latest_active_contract self (contract_list self))
      as [[c|]|] eqn:Hlatest; cbn [bind]; try discriminate.
    intros [= <-]. exists c. split; [|reflexivity].
    now apply latest_active_contract_is_active.
  - intros res start end__ url q.
    unfold measurements_request,
      _get_measurements_endpoint_and_delivery_site_id,
      get_latest_active_delivery_site_id.
    destruct (minus_one_day start); cbn [bind]; [|discriminate].
    destruct (_get_contract_by_delivery_site_id self None) as [[c|]|];
      cbn [bind]; try discriminate.
    destruct (String.eqb (domain c) "electricity-transfer"); cbn [bind];
      intros [= <- <-]; reflexivity.
  - intros year_ url q.
    unfold monthly_measurements_request,
      _get_measurements_endpoint_and_delivery_site_id,
      get_latest_active_delivery_site_id.
    destruct (_get_contract_by_delivery_site_id self None) as [[c|]|];
      cbn [bind]; try discriminate.
    destruct (String.eqb (domain c) "electricity-transfer"); cbn [bind];
      intros [= <- <-]; reflexivity.
  - intros start end__ url q.
    unfold spot_prices_request, get_latest_active_delivery_site_id.
    destruct (minus_one_day start); cbn [bind]; [|discriminate].
    destruct (_get_contract_by_delivery_site_id self None) as [[c|]|];
      cbn [bind]; try discriminate.
    intros [= <- <-]. reflexivity.
Qed.

Lemma requests_without_site_witness :
  get_latest_active_delivery_site_id (daily_client [sample_days]) = Ok 7.
Proof.
  apply (proj1 (proj2 (requests_without_site (daily_client [sample_days])))
               "day" march_1 march_31
               "https://api.omahelen.fi/v14/measurements/electricity"
               {| begin_ := "2024-02-29T22:00:00+00:00";
                  end_ := "2024-03-31T21:59:59+00:00";
                  resolution := "day"; site := 7;
                  allow_transfer := "true" |}).
  vm_compute. reflexivity.
Defined.

(** ** The latest active contract *)

Lemma map_r_Raise_inv {A B : Type} (f : A -> result B) (l : list A)
  (e : exn) :
  map_r f l = Raise e -> exists x, In x l /\ f x = Raise e.
Proof.
  induction l as [|x l IH]; simpl; [discriminate|].
  destruct (f x) as [y|e'] eqn:Hx; cbn [bind].
  - destruct (map_r f l) as [r|e'] eqn:Hl; cbn [bind]; [discriminate|].
    intros [= <-]. destruct (IH eq_refl) as [z [Hz Hfz]].
    exists z. split; [now right | exact Hfz].
  - intros [= <-]. exists x. split; [now left | exact Hx].
Qed.

Lemma filter_active_contracts_raises (self : HelenApiClient)
  (contracts : list Contract) (e : exn) :
  filter_active_contracts self contracts = Raise e ->
  e = ValueError /\ ~ end_dates_parse contracts.
Proof.
  intros Hraise. split.
  - unfold filter_active_contracts in Hraise.
    destruct (filter_r _ contracts) as [r|e'] eqn:Hr; cbn [bind] in Hraise;
      [discriminate|].
    injection Hraise as <-. apply filter_r_Raise_inv in Hr.
    destruct Hr as [c [_ Hc]]. destruct (end_date c) as [s|]; [|discriminate].
    unfold _date_is_now_or_later in Hc.
    destruct (strptime s) as [t|e''] eqn:Hs; [discriminate|].
    cbn [bind] in Hc. injection Hc as <-.
    now apply (strptime_raises_ValueError s).
  - intros Hend. rewrite (filter_active_contracts_spec _ _ Hend) in Hraise.
    discriminate.
Qed.

Lemma sort_by_start_date_raises (contracts : list Contract) (e : exn) :
  sort_by_start_date contracts = Raise e ->
  e = ValueError /\ ~ start_dates_parse contracts.
Proof.
  unfold sort_by_start_date. intros Hraise.
  destruct (map_r _ contracts) as [keys|e'] eqn:Hkeys; cbn [bind] in Hraise;
    [discriminate|].
  injection Hraise as <-. split.
  - apply map_r_Raise_inv in Hkeys. destruct Hkeys as [c [_ Hc]].
    now apply (strptime_raises_ValueError (start_date c)).
  - intros Hparse. destruct (map_r_total _ _ Hparse) as [keys [Hok _]].
    congruence.
Qed.

(** C1 (amended): for every contract list whose non-null end dates are
    written in the format [%Y-%m-%dT%H:%M:%S], [filter_active_contracts]
    keeps, in order, exactly the contracts whose [end_date] is null or not
    before the current time and whose domain is not
    ['electricity-production']; [_get_latest_active_contract] returns null
    when none remains, the remaining contract when one remains, and, when
    two or more remain and their start dates are written in that format,
    one of them whose [start_date] is the latest. It raises, and then
    [ValueError], only when an end date or, with two or more active
    contracts, the start date of an active contract is not in the format.
    For two contracts without end date, of domain ['electricity'],
    starting at 2023-01-01T00:00:00 and 2024-01-01T00:00:00, it returns the
    2024 contract, in whichever order they are listed. *)
Theorem latest_active_contract_resolution :
  (forall (self : HelenApiClient) (contracts : list Contract),
      let active := List.filter (is_active (clock self)) contracts in
      (end_dates_parse contracts ->
       filter_active_contracts self contracts = Ok active /\
       (forall c, In c active <->
                  In c contracts /\
                  (end_date c = None \/
                   exists s t, end_date c = Some s /\ strptime s = Ok t
                               /\ dt_geb t (clock self) = true) /\
                  domain c <> "electricity-production") /\
       (active = [] ->
        _get_latest_active_contract self contracts = Ok None) /\
       (forall c, active = [c] ->
                  _get_latest_active_contract self contracts = Ok (Some c)) /\
       ((2 <= List.length active)%nat -> start_dates_parse active ->
        exists c tc,
          _get_latest_active_contract self contracts = Ok (Some c) /\
          In c active /\
          strptime (start_date c) = Ok tc /\
          forall c' t', In c' active -> strptime (start_date c') = Ok t' ->
                        dt_geb tc t' = true)) /\
      (forall e,
          _get_latest_active_contract self contracts = Raise e ->
          e = ValueError /\
          (~ end_dates_parse contracts \/
           (2 <= List.length active)%nat /\ ~ start_dates_parse active))) /\
  (forall (self : HelenApiClient) (site1 site2 : Z) (ps1 ps2 : list Product),
      let c2023 :=
        contract_of "electricity" "2023-01-01T00:00:00" None site1 ps1 in
      let c2024 :=
        contract_of "electricity" "2024-01-01T00:00:00" None site2 ps2 in
      _get_latest_active_contract self [c2023; c2024] = Ok (Some c2024) /\
      _get_latest_active_contract self [c2024; c2023] = Ok (Some c2024)).
Proof.
  split.
  - intros self contracts active. split.
    + intros Hend.
      pose proof (filter_active_contracts_spec self contracts Hend)
        as Hfilter.
      fold active in Hfilter.
      split; [exact Hfilter|]. split.
      { intros c. unfold active. rewrite filter_In, is_active_iff. tauto. }
      unfold _get_latest_active_contract. rewrite Hfilter. cbn [bind].
      split; [intros ->; reflexivity|].
      split; [intros c ->; reflexivity|].
      intros Hlen Hstart.
      destruct (sort_by_start_date_head active Hstart)
        as [h [t [th [Hsort [Hin [Hth Hmax]]]]]].
      { intros Hnil. rewrite Hnil in Hlen. simpl in Hlen. lia. }
      destruct (Nat.ltb_spec 1 (List.length active)) as [_|Hone]; [|lia].
      rewrite Hsort. cbn.
      exists h, th. repeat split; assumption.
    + intros e. unfold _get_latest_active_contract.
      destruct (filter_active_contracts self contracts) as [a|e'] eqn:Hfilter;
        cbn [bind].
      * apply filter_active_contracts_Ok in Hfilter.
        destruct Hfilter as [_ Ha]. fold active in Ha. subst a.
        destruct (Nat.ltb_spec 1 (List.length active)) as [Hmany|Hfew].
        -- destruct (sort_by_start_date active) as [sorted|e'] eqn:Hsort;
             cbn [bind].
           ++ destruct sorted; cbn; discriminate.
           ++ intros [= <-]. apply sort_by_start_date_raises in Hsort.
              destruct Hsort as [-> Hnot]. split; [reflexivity|].
              right. split; [lia | exact Hnot].
        -- cbn [bind]. destruct active; cbn; discriminate.
      * intros [= <-]. apply filter_active_contracts_raises in Hfilter.
        destruct Hfilter as [-> Hnot]. split; [reflexivity | now left].
  - intros self site1 site2 ps1 ps2. split; reflexivity.
Qed.

Lemma latest_active_contract_resolution_witness :
  let expired :=
    contract_of "electricity" "unknown" (Some "2024-05-31T23:59:59") 1 [] in
  let produced :=
    contract_of "electricity-production" "" None 3 [] in
  let undated := contract_of "electricity" "2023-01-01" None 2 [] in
  let c2023 := contract_of "electricity" "2023-01-01T00:00:00" None 2 [] in
  let c2024 :=
    contract_of "electricity-transfer" "2024-01-01T00:00:00"
                (Some "2024-06-01T12:00:00") 4 [] in
  let self := sample_client [] nothing_measured no_prices in
  _get_latest_active_contract self [expired; undated; produced]
  = Ok (Some undated)
  /\ exists c tc,
       _get_latest_active_contract self [expired; c2023; produced; c2024]
       = Ok (Some c) /\
       In c [c2023; c2024] /\
       strptime (start_date c) = Ok tc /\
       forall c' t', In c' [c2023; c2024] ->
                     strptime (start_date c') = Ok t' ->
                     dt_geb tc t' = true.
Proof.
  intros expired produced undated c2023 c2024 self.
  split.
  - assert (end_dates_parse [expired; undated; produced]) as Hend
      by dates_parse.
    destruct (proj1 (proj1 latest_active_contract_resolution self _) Hend)
      as [_ [_ [_ [Hone _]]]].
    apply Hone. reflexivity.
  - assert (end_dates_parse [expired; c2023; produced; c2024]) as Hend
      by dates_parse.
    destruct (proj1 (proj1 latest_active_contract_resolution self _) Hend)
      as [_ [_ [_ [_ Hmany]]]].
    apply Hmany; [vm_compute; lia | dates_parse].
Defined.
